(** * Maintenance-window scheduling model (src/main.py)

    A shallow embedding of [build_model] and [print_solution].

    The program builds a Pyomo binary program and prints the solver's
    answer.  Pyomo objects are embedded as follows:

    - Python [int] is [Z]; Python [float] is idealised as an exact
      rational [Q] (no rounding in the arithmetic);
    - a Python [dict] keyed by day is a [gmap Z _];
    - an exception is the left injection of [result];
    - a Pyomo expression is a syntax tree [expr] recording the arithmetic
      in the order the Python operators build it;
    - the values the solver loads into the variables are a [valuation]. *)

From Stdlib Require Import ZArith QArith Qround Lqa List String Ascii.
From stdpp Require Import gmap.

Set Warnings "-clear-no-such-hyp".
Local Open Scope Z_scope.

(** ** Exceptions *)

Inductive PyError : Type :=
| KeyError      (* an index outside the index set of a component *)
| ValueError    (* a Param without value, or a variable without value *)
| ApplicationError. (* raised by the solver, e.g. a missing executable *)

Definition result (A : Type) : Type := (PyError + A)%type.

Definition ret {A : Type} (a : A) : result A := inr a.
Definition raise {A : Type} (e : PyError) : result A := inl e.
Definition bind {A B : Type} (c : result A) (k : A -> result B) : result B :=
  match c with
  | inl e => inl e
  | inr a => k a
  end.

Notation "'let*' x ':=' c 'in' k" := (bind c (fun x => k))
  (at level 10, x name, c at level 100, k at level 200).

(** ** Index sets, ranges and parameters *)

(** [RangeSet(lo, hi)]: the days [lo..hi], both ends included. *)
Definition RangeSet (lo hi : Z) : list Z := seqZ lo (hi - lo + 1).

(** Python's [range(lo, hi)]: [hi] excluded. *)
Definition range (lo hi : Z) : list Z := seqZ lo (hi - lo).

(** Python's [len] of a dict. *)
Definition len {V : Type} (d : gmap Z V) : Z := Z.of_nat (size d).

(** Python's [max] over the keys of a dict; it raises on an empty dict. *)
Definition max_keys {V : Type} (d : gmap Z V) : result Z :=
  match (map_to_list d).*1 with
  | [] => raise ValueError
  | k :: ks => ret (fold_left Z.max ks k)
  end.

(** An indexed, immutable [Param]: its index set and its data. *)
Record ParamOf (V : Type) : Type := mkParam {
  index_set : list Z;
  data : gmap Z V
}.
Arguments mkParam {V} _ _.
Arguments index_set {V} _.
Arguments data {V} _.

(** [Param(index, initialize=d)]: every key of [d] is stored through
    [__setitem__], which raises [KeyError] on a key outside the index set;
    the construction passes that [KeyError] on. *)
Definition Param {V : Type} (index : list Z) (initialize : gmap Z V)
  : result (ParamOf V) :=
  if decide (map_Forall (fun k _ => k ∈ index) initialize)
  then ret (mkParam index initialize)
  else raise KeyError.

(** [p[k]]: [KeyError] outside the index set, [ValueError] for an index
    without value (the Params here have no default). *)
Definition getitem {V : Type} (p : ParamOf V) (k : Z) : result V :=
  if decide (k ∈ index_set p) then
    match data p !! k with
    | Some v => ret v
    | None => raise ValueError
    end
  else raise KeyError.

(** Python truthiness of a number, and [not]. *)
Definition py_not (x : Z) : bool := x =? 0.

(** A day whose availability flag is false. *)
Definition unavailable (availability : gmap Z Z) (day : Z) : Prop :=
  exists v, availability !! day = Some v /\ py_not v = true.

(** ** Variables, expressions, constraints *)

Inductive var : Type :=
| Split
| Maintenance (day : Z)
| Start5 (day : Z)
| Start3 (day : Z)
| Start2 (day : Z).

#[global] Instance var_eq_dec : EqDecision var.
Proof. solve_decision. Defined.

Inductive expr : Type :=
| Num (q : Q)
| V (v : var)
| Add (a b : expr)
| Sub (a b : expr)
| Mul (a b : expr).

(** Python's [sum(...)]: starts from [0] and adds from the left. *)
Definition py_sum (es : list expr) : expr := fold_left Add es (Num 0).

(** An equality constraint [lhs == rhs]. *)
Record constraint : Type := Eq { lhs : expr; rhs : expr }.

Inductive Sense : Type := minimize | maximize.

(** ** The model *)

Record Model : Type := mkModel {
  T : list Z;
  Production : ParamOf Q;
  Prices : ParamOf Q;
  MaintenanceCoeff : ParamOf Q;
  Availability : ParamOf Z;
  (** the calls [x.fix(v)], in program order *)
  fixed : list (var * Q);
  one_maintenance_start_5 : constraint;
  one_maintenance_start_3 : constraint;
  one_maintenance_start_2 : constraint;
  (** the indexed constraint, one entry per day of [T] *)
  link_maintenance : list (Z * constraint);
  profit : expr;
  sense : Sense
}.

(** The declared variables: [Split] and the four families over [T], all
    with [domain=Binary]. *)
Definition variables (m : Model) : list var :=
  Split :: (Maintenance <$> T m) ++ (Start5 <$> T m)
        ++ (Start3 <$> T m) ++ (Start2 <$> T m).

(** Lines 45-49: fix the three start variables of every unavailable day. *)
Fixpoint fix_unavailable (availability : ParamOf Z) (days : list Z)
    (acc : list (var * Q)) : result (list (var * Q)) :=
  match days with
  | [] => ret acc
  | day :: rest =>
      let* av := getitem availability day in
      if py_not av
      then fix_unavailable availability rest
             (acc ++ [(Start5 day, 0%Q); (Start3 day, 0%Q); (Start2 day, 0%Q)])
      else fix_unavailable availability rest acc
  end.

(** Lines 55-59. *)
Definition link_maintenance_rule (day : Z) : constraint :=
  let days_5 := py_sum (V ∘ Start5 <$> range (Z.max 1 (day - 4)) (day + 1)) in
  let days_3 := py_sum (V ∘ Start3 <$> range (Z.max 1 (day - 2)) (day + 1)) in
  let days_2 := py_sum (V ∘ Start2 <$> range (Z.max 1 (day - 1)) (day + 1)) in
  Eq (V (Maintenance day)) (Add (Add days_5 days_3) days_2).

(** One summand of the objective, lines 65-66. *)
Definition profit_term (capacity fixed_cost : Q)
    (production prices coeff : ParamOf Q) (day : Z) : result expr :=
  let* p := getitem production day in
  let* pr := getitem prices day in
  let* c := getitem coeff day in
  ret (Sub (Mul (Num (capacity * p * pr)) (Sub (Num 1) (V (Maintenance day))))
           (Mul (Num (fixed_cost * c)) (V (Maintenance day)))).

(** The generator of the objective, evaluated day by day. *)
Fixpoint profit_terms (capacity fixed_cost : Q)
    (production prices coeff : ParamOf Q) (days : list Z) : result (list expr) :=
  match days with
  | [] => ret []
  | day :: rest =>
      let* t := profit_term capacity fixed_cost production prices coeff day in
      let* ts := profit_terms capacity fixed_cost production prices coeff rest in
      ret (t :: ts)
  end.

Definition build_model (prod price coeff : gmap Z Q) (availability : gmap Z Z)
    (capacity fixed_cost : Q) : result Model :=
  let days := RangeSet 1 (len prod) in
  let* production := Param days prod in
  let* prices := Param days price in
  let* maintenance_coeff := Param days coeff in
  let* avail := Param days availability in
  let* fixings := fix_unavailable avail days [] in
  let c5 := Eq (py_sum (V ∘ Start5 <$> days)) (Sub (Num 1) (V Split)) in
  let c3 := Eq (py_sum (V ∘ Start3 <$> days)) (V Split) in
  let c2 := Eq (py_sum (V ∘ Start2 <$> days)) (V Split) in
  let link := (fun day => (day, link_maintenance_rule day)) <$> days in
  let* terms := profit_terms capacity fixed_cost production prices
                  maintenance_coeff days in
  ret (mkModel days production prices maintenance_coeff avail fixings
         c5 c3 c2 link (py_sum terms) maximize).

(** ** Semantics of expressions and feasible assignments *)

(** A total assignment of numbers to the variables. *)
Definition assignment : Type := var -> Q.

Fixpoint eval (a : assignment) (e : expr) : Q :=
  match e with
  | Num q => q
  | V v => a v
  | Add x y => eval a x + eval a y
  | Sub x y => eval a x - eval a y
  | Mul x y => eval a x * eval a y
  end.

Definition holds (a : assignment) (c : constraint) : Prop :=
  eval a (lhs c) == eval a (rhs c).

(** [domain=Binary]. *)
Definition is_binary (q : Q) : Prop := q == 0 \/ q == 1.

(** An assignment is feasible for a model when every declared variable
    takes a binary value, every fixed variable has the value it was fixed
    to, and every constraint holds. *)
Definition feasible (m : Model) (a : assignment) : Prop :=
  Forall (fun v => is_binary (a v)) (variables m) /\
  Forall (fun vq => a vq.1 == vq.2) (fixed m) /\
  holds a (one_maintenance_start_5 m) /\
  holds a (one_maintenance_start_3 m) /\
  holds a (one_maintenance_start_2 m) /\
  Forall (fun dc => holds a dc.2) (link_maintenance m).

(** The same test as a program, for concrete models. *)
Definition holdsb (a : assignment) (c : constraint) : bool :=
  Qeq_bool (eval a (lhs c)) (eval a (rhs c)).

Definition is_binaryb (q : Q) : bool := Qeq_bool q 0 || Qeq_bool q 1.

(** Every equality constraint of the model holds. *)
Definition satisfiesb (m : Model) (a : assignment) : bool :=
  holdsb a (one_maintenance_start_5 m)
  && holdsb a (one_maintenance_start_3 m)
  && holdsb a (one_maintenance_start_2 m)
  && forallb (fun dc => holdsb a dc.2) (link_maintenance m).

Definition feasibleb (m : Model) (a : assignment) : bool :=
  forallb (fun v => is_binaryb (a v)) (variables m)
  && forallb (fun vq => Qeq_bool (a vq.1) vq.2) (fixed m)
  && satisfiesb m a.

(** Sum of [f] over a list of days, and over the days [lo..hi]. *)
Fixpoint sumQ (f : Z -> Q) (days : list Z) : Q :=
  match days with
  | [] => 0
  | d :: rest => f d + sumQ f rest
  end.

Definition sum_from_to (lo hi : Z) (f : Z -> Q) : Q :=
  sumQ f (seqZ lo (hi - lo + 1)).

(** The window starts that reach day [d]: a 5-day window started on one of
    the days [d-4..d], a 3-day window on [d-2..d], a 2-day window on
    [d-1..d], no day before day 1. *)
Definition covering_starts (a : assignment) (d : Z) : Q :=
  (sum_from_to (Z.max 1 (d - 4)) d (fun k => a (Start5 k))
   + sum_from_to (Z.max 1 (d - 2)) d (fun k => a (Start3 k))
   + sum_from_to (Z.max 1 (d - 1)) d (fun k => a (Start2 k)))%Q.

(** The days of a model that an assignment puts under maintenance. *)
Definition maintenance_days (m : Model) (a : assignment) : list Z :=
  List.filter (fun d => Qeq_bool (a (Maintenance d)) 1) (T m).

(** ** The solver's answer and its report *)

(** [pyomo.opt.SolverStatus]. *)
Inductive SolverStatus : Type :=
| ss_ok | ss_warning | ss_error | ss_aborted | ss_unknown.

(** [pyomo.opt.TerminationCondition]. *)
Inductive TerminationCondition : Type :=
| tc_unknown | tc_maxTimeLimit | tc_maxIterations | tc_minFunctionValue
| tc_minStepLength | tc_globallyOptimal | tc_locallyOptimal | tc_feasible
| tc_optimal | tc_maxEvaluations | tc_other | tc_unbounded | tc_infeasible
| tc_infeasibleOrUnbounded | tc_invalidProblem | tc_intermediateNonInteger
| tc_noSolution | tc_solverFailure | tc_internalSolverError | tc_error
| tc_userInterrupt | tc_resourceInterrupt | tc_licensingProblems.

#[global] Instance SolverStatus_eq_dec : EqDecision SolverStatus.
Proof. solve_decision. Defined.
#[global] Instance TerminationCondition_eq_dec : EqDecision TerminationCondition.
Proof. solve_decision. Defined.

(** [results.solver]. *)
Record Results : Type := mkResults {
  status : SolverStatus;
  termination_condition : TerminationCondition
}.

(** The values stored in the variables of a model; [None] is a variable
    that holds no value (never assigned by a solver nor fixed). *)
Definition valuation : Type := var -> option Q.

(** [value(x)] of a variable: it raises on a variable without value. *)
Definition value (vals : valuation) (v : var) : result Q :=
  match vals v with
  | Some q => ret q
  | None => raise ValueError
  end.

(** [value(e)] of an expression. *)
Fixpoint value_expr (vals : valuation) (e : expr) : result Q :=
  match e with
  | Num q => ret q
  | V v => value vals v
  | Add x y =>
      let* p := value_expr vals x in
      let* q := value_expr vals y in ret (p + q)%Q
  | Sub x y =>
      let* p := value_expr vals x in
      let* q := value_expr vals y in ret (p - q)%Q
  | Mul x y =>
      let* p := value_expr vals x in
      let* q := value_expr vals y in ret (p * q)%Q
  end.

(** Python's [x > y] and [x == y] on numbers. *)
Definition py_gt (x y : Q) : bool := negb (Qle_bool x y).
Definition py_eq (x y : Q) : bool := Qeq_bool x y.

(** Python's [round(x, 2)]: to the nearest hundredth, ties to even.  It is
    applied here to the exact value; the code rounds the binary64 value of
    the objective, whose last printed digit can differ, so the properties
    below leave the number of a [TotalRevenue] line open. *)
Definition py_round2 (x : Q) : Q :=
  let y := (x * 100)%Q in
  let f := Qfloor y in
  let r := (y - inject_Z f)%Q in
  let n := if py_gt (1 # 2) r then f
           else if py_gt r (1 # 2) then f + 1
           else if Z.even f then f else f + 1 in
  (n # 100)%Q.

(** A printed line. *)
Inductive line : Type :=
| Text (s : string)
      (* print(s) *)
| WindowStart (window day : Z)
      (* print(f"{window}-day window starts on day {day}") *)
| TotalRevenue (v : Q).
      (* print("Total Revenue:", v) *)

(** Lines 13-15. *)
Fixpoint report_start5 (vals : valuation) (days : list Z) : result (list line) :=
  match days with
  | [] => ret []
  | day :: rest =>
      let* x := value vals (Start5 day) in
      let here := if py_gt x (1 # 2) then [WindowStart 5 day] else [] in
      let* out := report_start5 vals rest in
      ret (here ++ out)
  end.

(** Lines 18-22. *)
Fixpoint report_start3_start2 (vals : valuation) (days : list Z)
  : result (list line) :=
  match days with
  | [] => ret []
  | day :: rest =>
      let* x3 := value vals (Start3 day) in
      let here3 := if py_gt x3 (1 # 2) then [WindowStart 3 day] else [] in
      let* x2 := value vals (Start2 day) in
      let here2 := if py_gt x2 (1 # 2) then [WindowStart 2 day] else [] in
      let* out := report_start3_start2 vals rest in
      ret (here3 ++ here2 ++ out)
  end.

(** The lines [print_solution] has printed when it returns. *)
Definition print_solution (model : Model) (vals : valuation)
    (results : Results) : result (list line) :=
  if bool_decide (status results = ss_ok)
     && bool_decide (termination_condition results = tc_optimal)
  then
    let* split := value vals Split in
    let* body :=
      if py_eq split 0 then
        let* starts := report_start5 vals (T model) in
        ret (Text "Chosen strategy: 5-day maintenance." :: starts)
      else
        let* starts := report_start3_start2 vals (T model) in
        ret (Text "Chosen strategy: 3-day + 2-day maintenance." :: starts) in
    let* p := value_expr vals (profit model) in
    ret (Text "Optimal solution found." :: body ++ [TotalRevenue (py_round2 p)])
  else ret [Text "No feasible solution or solver error."].

(** ** The scenarios of the script *)

(** A forecast series with the same value on each of the days [1..n]. *)
Definition uniform {V : Type} (n : Z) (v : V) : gmap Z V :=
  list_to_map ((fun d => (d, v)) <$> seqZ 1 n).

(** Line 95: [{d: 1 for d in range(1, T + 1)}]. *)
Definition full_availability (horizon : Z) : gmap Z Z :=
  list_to_map ((fun d => (d, 1%Z)) <$> range 1 (horizon + 1)).

(** Line 108: [{d: 0 if lo <= d <= hi else 1 for d in range(1, T + 1)}]. *)
Definition blackout_availability (lo hi horizon : Z) : gmap Z Z :=
  list_to_map ((fun d => (d, if (lo <=? d) && (d <=? hi) then 0%Z else 1%Z))
                 <$> range 1 (horizon + 1)).

(** The assignment of a single 5-day window started on day [s], over the
    days [1..horizon]. *)
Definition one_window (s horizon : Z) : assignment :=
  fun v =>
    match v with
    | Split => 0%Q
    | Start5 d => if d =? s then 1%Q else 0%Q
    | Maintenance d =>
        if (s <=? d) && (d <=? s + 4) && (d <=? horizon) then 1%Q else 0%Q
    | Start3 _ | Start2 _ => 0%Q
    end.

(** The assignment of a 3-day window started on day [s3] and a 2-day window
    started on day [s2]. *)
Definition two_windows (s3 s2 horizon : Z) : assignment :=
  fun v =>
    match v with
    | Split => 1%Q
    | Start5 _ => 0%Q
    | Start3 d => if d =? s3 then 1%Q else 0%Q
    | Start2 d => if d =? s2 then 1%Q else 0%Q
    | Maintenance d =>
        if (((s3 <=? d) && (d <=? s3 + 2)) || ((s2 <=? d) && (d <=? s2 + 1)))
           && (d <=? horizon)
        then 1%Q else 0%Q
    end.

(** A relaxed answer for a horizon of ten days: every equality constraint
    holds exactly and every value is within [eps] of an integer, with a
    5-day window on day 1 and [Split = eps]. *)
Definition near_integral (eps : Q) : assignment :=
  fun v =>
    match v with
    | Split => eps
    | Start5 d => if d =? 1 then (1 - eps)%Q else 0%Q
    | Start3 d => if d =? 7 then eps else 0%Q
    | Start2 d => if d =? 7 then eps else 0%Q
    | Maintenance d =>
        if d <=? 5 then (1 - eps)%Q
        else if d =? 6 then 0%Q
        else if d <=? 8 then (2 * eps)%Q
        else if d =? 9 then eps
        else 0%Q
    end.

(** The solver stored the value of every variable. *)
Definition loaded (a : assignment) : valuation := fun v => Some (a v).


(** ** Well-formed inputs and expressions *)

(** Every key of a dict is a day of [1..n]. *)
Definition keys_within {V : Type} (d : gmap Z V) (n : Z) : Prop :=
  forall k v, d !! k = Some v -> 1 <= k <= n.

(** A dict holds a value for every day of [1..n]. *)
Definition covers {V : Type} (d : gmap Z V) (n : Z) : Prop :=
  forall k, 1 <= k <= n -> is_Some (d !! k).

(** The variables an expression mentions. *)
Fixpoint vars_of (e : expr) : list var :=
  match e with
  | Num _ => []
  | V v => [v]
  | Add x y | Sub x y | Mul x y => vars_of x ++ vars_of y
  end.

(** The constraints of a model. *)
Definition constraints (m : Model) : list constraint :=
  one_maintenance_start_5 m :: one_maintenance_start_3 m
    :: one_maintenance_start_2 m :: (link_maintenance m).*2.

(** The forecasts the script can process: at least one day, the days of
    the production forecast are [1..n], and the price and coefficient
    forecasts cover exactly these days. *)
Definition well_formed_forecast (prod price coeff : gmap Z Q) : Prop :=
  prod <> ∅ /\ keys_within prod (len prod) /\
  keys_within price (len prod) /\ keys_within coeff (len prod) /\
  covers price (len prod) /\ covers coeff (len prod).

(** ** The script, lines 88-115 *)

Section Script.

(** [SolverFactory('glpk').solve(model, tee=False)]: the external solver.
    It stores values in the variables of the model and returns its
    results, or raises. *)
Variable solve : Model -> result (valuation * Results).

(** The lines the script has printed when it ends, from the three
    forecast dicts. *)
Definition script (prod price coeff : gmap Z Q) : result (list line) :=
  let* horizon := max_keys prod in
  let capacity := 20%Q in
  let fixed_cost := 500%Q in
  let availability := full_availability horizon in
  let* model1 :=
    build_model prod price coeff availability capacity fixed_cost in
  let* solved1 := solve model1 in
  let* report1 := print_solution model1 solved1.1 solved1.2 in
  let availability := blackout_availability 150 200 horizon in
  let* model2 :=
    build_model prod price coeff availability capacity fixed_cost in
  let* solved2 := solve model2 in
  let* report2 := print_solution model2 solved2.1 solved2.2 in
  ret ([Text "=== RESULTS WITHOUT NO-MAINTENANCE WINDOW ==="]
       ++ report1
       ++ [Text ("-------------------------------------------------"
                 ++ String "010"%char EmptyString);
           Text "=== RESULTS WITH NO-MAINTENANCE WINDOW [150..200] ==="]
       ++ report2
       ++ [Text "-------------------------------------------------"]).

End Script.

(** * Properties *)

Local Open Scope Q_scope.

(** ** Sums *)

Section Sums.
Variable f : Z -> Q.

Lemma sumQ_app (xs ys : list Z) :
  sumQ f (xs ++ ys) == sumQ f xs + sumQ f ys.
Proof. induction xs as [|x xs IH]; simpl; [|rewrite IH]; lra. Qed.

Lemma sumQ_zero (days : list Z) :
  (forall d, d ∈ days -> f d == 0) -> sumQ f days == 0.
Proof.
  induction days as [|d days IH]; intros Hz; simpl; [lra|].
  rewrite (Hz d), IH; [lra| |]; intros; try apply Hz; set_solver.
Qed.

Lemma sumQ_nonneg (days : list Z) :
  (forall d, d ∈ days -> is_binary (f d)) -> (0 <= sumQ f days)%Q.
Proof.
  induction days as [|d days IH]; intros Hb; simpl; [lra|].
  assert (0 <= sumQ f days)%Q by (apply IH; intros; apply Hb; set_solver).
  destruct (Hb d) as [H0|H1]; [set_solver| |]; lra.
Qed.

Lemma sumQ_zero_inv (days : list Z) :
  (forall d, d ∈ days -> is_binary (f d)) ->
  sumQ f days == 0 -> forall d, d ∈ days -> f d == 0.
Proof.
  induction days as [|d days IH]; intros Hb Hs k Hk; [set_solver|].
  simpl in Hs.
  assert (forall d, d ∈ days -> is_binary (f d)) as Hbd
    by (intros; apply Hb; set_solver).
  pose proof (sumQ_nonneg days Hbd).
  assert (f d == 0) by (destruct (Hb d) as [?|?]; [set_solver| |]; lra).
  rewrite elem_of_cons in Hk; destruct Hk as [->|Hk]; [done|].
  apply IH; [done|lra|done].
Qed.

(** A binary family that sums to one selects exactly one day. *)
Lemma sumQ_one_inv (days : list Z) :
  (forall d, d ∈ days -> is_binary (f d)) -> sumQ f days == 1 ->
  exists s, s ∈ days /\ f s == 1 /\
            (NoDup days -> forall d, d ∈ days -> d <> s -> f d == 0).
Proof.
  induction days as [|d days IH]; intros Hb Hs; [simpl in Hs; lra|].
  simpl in Hs.
  assert (forall d, d ∈ days -> is_binary (f d)) as Hbd
    by (intros; apply Hb; set_solver).
  pose proof (sumQ_nonneg days Hbd).
  destruct (Hb d) as [H0|H1]; [set_solver| |].
  - destruct IH as (s & Hin & Hone & Hrest); [done|lra|].
    exists s; split; [set_solver|split; [done|]].
    intros Hnd k Hk Hne. apply NoDup_cons in Hnd as [? Hnd].
    rewrite elem_of_cons in Hk; destruct Hk as [->|Hk]; [done|]. by apply Hrest.
  - exists d; split; [set_solver|split; [done|]].
    intros Hnd k Hk Hne. rewrite elem_of_cons in Hk; destruct Hk as [->|Hk]; [done|].
    apply (sumQ_zero_inv days Hbd); [lra|done].
Qed.

(** A family that vanishes away from [s] sums to its value at [s]. *)
Lemma sumQ_single (s : Z) (days : list Z) :
  NoDup days -> (forall d, d ∈ days -> d <> s -> f d == 0) ->
  sumQ f days == if decide (s ∈ days) then f s else 0.
Proof.
  induction days as [|d days IH]; intros Hnd Hz.
  - case_decide; [set_solver|reflexivity].
  - apply NoDup_cons in Hnd as [Hd Hnd]. cbn [sumQ].
    rewrite IH; [|done|intros; apply Hz; set_solver].
    destruct (decide (d = s)) as [->|Hne].
    + repeat case_decide; try set_solver. lra.
    + rewrite (Hz d) by set_solver.
      repeat case_decide; try set_solver; lra.
Qed.
End Sums.

(** Evaluating a Python [sum] adds the values of the summands. *)
Lemma eval_fold_left_Add (a : assignment) (es : list expr) (acc : expr) :
  eval a (fold_left Add es acc)
  == eval a acc + fold_right (fun e s => eval a e + s) 0 es.
Proof.
  revert acc; induction es as [|e es IH]; intros acc; simpl; [lra|].
  rewrite IH; simpl; lra.
Qed.

Lemma eval_py_sum_vars (a : assignment) (x : Z -> var) (days : list Z) :
  eval a (py_sum (V ∘ x <$> days)) == sumQ (fun d => a (x d)) days.
Proof.
  unfold py_sum. rewrite eval_fold_left_Add. simpl.
  assert (fold_right (fun e s => eval a e + s) 0 (V ∘ x <$> days)
          == sumQ (fun d => a (x d)) days) as ->; [|lra].
  induction days as [|d days IH]; simpl; [lra|]. rewrite IH. lra.
Qed.

(** ** Exceptions and parameters *)

Lemma bind_inr {A B : Type} (c : result A) (k : A -> result B) (b : B) :
  bind c k = inr b -> exists x, c = inr x /\ k x = inr b.
Proof. destruct c as [e|x]; simpl; [discriminate|eauto]. Qed.

Lemma Param_inr {V : Type} (index : list Z) (d : gmap Z V) (p : ParamOf V) :
  Param index d = inr p ->
  p = mkParam index d /\ forall k v, d !! k = Some v -> k ∈ index.
Proof.
  unfold Param. case_decide as Hall; [|discriminate].
  intros [= <-]. split; [done|]. intros k v Hk. exact (Hall k v Hk).
Qed.

Lemma getitem_inr {V : Type} (p : ParamOf V) (k : Z) (v : V) :
  getitem p k = inr v <-> k ∈ index_set p /\ data p !! k = Some v.
Proof.
  unfold getitem. case_decide as Hk.
  - destruct (data p !! k) as [w|]; simpl; split.
    + by intros [= ->].
    + by intros [_ [= ->]].
    + discriminate.
    + by intros [_ ?].
  - split; [discriminate|]. by intros [? _].
Qed.

Lemma elem_of_RangeSet (lo hi d : Z) : d ∈ RangeSet lo hi <-> (lo <= d <= hi)%Z.
Proof. unfold RangeSet. rewrite elem_of_seqZ. lia. Qed.

Lemma NoDup_RangeSet (lo hi : Z) : NoDup (RangeSet lo hi).
Proof. apply NoDup_seqZ. Qed.

Lemma range_sum_from_to (lo hi : Z) (f : Z -> Q) :
  sumQ f (range lo (hi + 1)%Z) = sum_from_to lo hi f.
Proof. unfold range, sum_from_to. do 2 f_equal. lia. Qed.

(** ** What [build_model] returns *)

Lemma fix_unavailable_spec (av : ParamOf Z) (days : list Z)
    (acc fx : list (var * Q)) :
  fix_unavailable av days acc = inr fx ->
  (forall x, x ∈ acc -> x ∈ fx) /\
  (forall d, d ∈ days ->
     exists v, getitem av d = inr v /\
       (py_not v = true ->
        (Start5 d, 0%Q) ∈ fx /\ (Start3 d, 0%Q) ∈ fx /\ (Start2 d, 0%Q) ∈ fx)) /\
  (forall x, x ∈ fx ->
     x ∈ acc \/
     exists d v, d ∈ days /\ getitem av d = inr v /\ py_not v = true /\
       x ∈ [(Start5 d, 0%Q); (Start3 d, 0%Q); (Start2 d, 0%Q)]).
Proof.
  revert acc; induction days as [|day rest IH]; intros acc; simpl.
  - intros [= <-]. split; [done|]. split; [set_solver|]. by left.
  - intros Hrun. apply bind_inr in Hrun as (v & Hget & Hrun).
    destruct (py_not v) eqn:Hnot; apply IH in Hrun as (Hacc & Hdays & Hfx).
    + split; [intros; apply Hacc; set_solver|]. split.
      * intros d Hd. rewrite elem_of_cons in Hd. destruct Hd as [->|Hd]; [|auto].
        exists v; split; [done|]. intros _.
        repeat split; apply Hacc; set_solver.
      * intros x Hx. destruct (Hfx x Hx) as [Hin|(d & w & ? & ? & ? & ?)].
        -- rewrite elem_of_app in Hin. destruct Hin as [?|?]; [by left|].
           right. exists day, v. repeat split; [set_solver|done..].
        -- right. exists d, w. repeat split; [set_solver|done..].
    + split; [done|]. split.
      * intros d Hd. rewrite elem_of_cons in Hd. destruct Hd as [->|Hd]; [|auto].
        exists v; split; [done|]. congruence.
      * intros x Hx. destruct (Hfx x Hx) as [Hin|(d & w & ? & ? & ? & ?)].
        -- by left.
        -- right. exists d, w. repeat split; [set_solver|done..].
Qed.


(** The shape of a model that [build_model] returned. *)
Lemma build_model_inr (prod price coeff : gmap Z Q) (availability : gmap Z Z)
    (capacity fixed_cost : Q) (m : Model) :
  build_model prod price coeff availability capacity fixed_cost = inr m ->
  let days := RangeSet 1 (len prod) in
  T m = days /\
  (forall k v, prod !! k = Some v -> k ∈ days) /\
  Availability m = mkParam days availability /\
  fix_unavailable (mkParam days availability) days [] = inr (fixed m) /\
  one_maintenance_start_5 m
    = Eq (py_sum (V ∘ Start5 <$> days)) (Sub (Num 1) (V Split)) /\
  one_maintenance_start_3 m = Eq (py_sum (V ∘ Start3 <$> days)) (V Split) /\
  one_maintenance_start_2 m = Eq (py_sum (V ∘ Start2 <$> days)) (V Split) /\
  link_maintenance m = (fun day => (day, link_maintenance_rule day)) <$> days /\
  (exists terms,
     profit_terms capacity fixed_cost (mkParam days prod) (mkParam days price)
       (mkParam days coeff) days = inr terms /\
     profit m = py_sum terms) /\
  sense m = maximize.
Proof.
  unfold build_model. intros Hrun.
  apply bind_inr in Hrun as (p & Hp & Hrun).
  apply bind_inr in Hrun as (pr & Hpr & Hrun).
  apply bind_inr in Hrun as (c & Hc & Hrun).
  apply bind_inr in Hrun as (av & Hav & Hrun).
  apply bind_inr in Hrun as (fx & Hfx & Hrun).
  apply bind_inr in Hrun as (terms & Hterms & [= <-]).
  apply Param_inr in Hp as [-> Hkeys], Hpr as [-> _], Hc as [-> _], Hav as [-> _].
  simpl. repeat split; eauto.
Qed.

(** ** Feasible assignments of a built model *)

Lemma sumQ_elem_le (f : Z -> Q) (days : list Z) (k : Z) :
  (forall d, d ∈ days -> is_binary (f d)) -> k ∈ days -> f k <= sumQ f days.
Proof.
  induction days as [|d days IH]; intros Hb Hk; [set_solver|].
  assert (forall d, d ∈ days -> is_binary (f d)) as Hbd
    by (intros; apply Hb; set_solver).
  pose proof (sumQ_nonneg f days Hbd). simpl.
  rewrite elem_of_cons in Hk. destruct Hk as [->|Hk]; [lra|].
  specialize (IH Hbd Hk). destruct (Hb d) as [?|?]; [set_solver| |]; lra.
Qed.

Lemma sumQ_pos_inv (f : Z -> Q) (days : list Z) :
  (forall d, d ∈ days -> is_binary (f d)) -> 0 < sumQ f days ->
  exists k, k ∈ days /\ f k == 1.
Proof.
  induction days as [|d days IH]; intros Hb Hpos; simpl in Hpos; [lra|].
  destruct (Hb d) as [H0|H1]; [set_solver| |].
  - destruct IH as (k & ? & ?); [intros; apply Hb; set_solver|lra|].
    exists k; split; [set_solver|done].
  - exists d; split; [set_solver|done].
Qed.

Lemma feasible_binary (prod price coeff : gmap Z Q) (availability : gmap Z Z)
    (capacity fixed_cost : Q) (m : Model) (a : assignment) :
  build_model prod price coeff availability capacity fixed_cost = inr m ->
  feasible m a ->
  is_binary (a Split) /\
  forall d, (1 <= d <= len prod)%Z ->
    is_binary (a (Maintenance d)) /\ is_binary (a (Start5 d)) /\
    is_binary (a (Start3 d)) /\ is_binary (a (Start2 d)).
Proof.
  intros Hb (Hdom & _). apply build_model_inr in Hb as (HT & _).
  rewrite Forall_forall in Hdom. unfold variables in Hdom. rewrite HT in Hdom.
  split; [apply Hdom; set_solver|].
  intros d Hd. apply elem_of_RangeSet in Hd.
  repeat split; apply Hdom; rewrite elem_of_cons, !elem_of_app, !list_elem_of_fmap;
    right; eauto 10.
Qed.

Lemma feasible_counts (prod price coeff : gmap Z Q) (availability : gmap Z Z)
    (capacity fixed_cost : Q) (m : Model) (a : assignment) :
  build_model prod price coeff availability capacity fixed_cost = inr m ->
  feasible m a ->
  sum_from_to 1 (len prod) (fun d => a (Start5 d)) == 1 - a Split /\
  sum_from_to 1 (len prod) (fun d => a (Start3 d)) == a Split /\
  sum_from_to 1 (len prod) (fun d => a (Start2 d)) == a Split.
Proof.
  intros Hb (_ & _ & H5 & H3 & H2 & _).
  apply build_model_inr in Hb as (_ & _ & _ & _ & E5 & E3 & E2 & _).
  rewrite E5 in H5. rewrite E3 in H3. rewrite E2 in H2.
  unfold holds in H5, H3, H2. simpl in H5, H3, H2.
  rewrite eval_py_sum_vars in H5, H3, H2. done.
Qed.

Lemma link_maintenance_rule_holds (a : assignment) (d : Z) :
  holds a (link_maintenance_rule d) <-> a (Maintenance d) == covering_starts a d.
Proof.
  unfold holds, link_maintenance_rule, covering_starts. simpl.
  rewrite !eval_py_sum_vars, !range_sum_from_to. reflexivity.
Qed.

Lemma feasible_link (prod price coeff : gmap Z Q) (availability : gmap Z Z)
    (capacity fixed_cost : Q) (m : Model) (a : assignment) (d : Z) :
  build_model prod price coeff availability capacity fixed_cost = inr m ->
  feasible m a -> (1 <= d <= len prod)%Z ->
  a (Maintenance d) == covering_starts a d.
Proof.
  intros Hb (_ & _ & _ & _ & _ & Hl) Hd.
  apply build_model_inr in Hb as (_ & _ & _ & _ & _ & _ & _ & El & _).
  rewrite El, Forall_forall in Hl.
  apply link_maintenance_rule_holds.
  apply (Hl (d, link_maintenance_rule d)).
  apply list_elem_of_fmap. exists d. split; [done|]. by apply elem_of_RangeSet.
Qed.

Lemma feasibleb_sound (m : Model) (a : assignment) :
  feasibleb m a = true -> feasible m a.
Proof.
  unfold feasibleb, satisfiesb, feasible, holdsb, holds, is_binaryb, is_binary.
  rewrite !andb_true_iff, !forallb_forall, !Forall_forall, !Qeq_bool_iff.
  intros ((Hd & Hf) & ((H5 & H3) & H2) & Hl).
  repeat split; try done.
  - intros v Hv. specialize (Hd v). rewrite orb_true_iff, !Qeq_bool_iff in Hd.
    apply Hd. by apply list_elem_of_In.
  - intros vq Hvq. apply Qeq_bool_iff, Hf. by apply list_elem_of_In.
  - intros dc Hdc. apply Qeq_bool_iff, Hl. by apply list_elem_of_In.
Qed.

(** ** Window-start counts *)

(** C1. In every feasible assignment of a built model the window-start
    counts follow the strategy: with [Split = 0] exactly one 5-day window
    starts over the days of the model and no 3-day or 2-day window does;
    with [Split = 1] exactly one 3-day and one 2-day window start and no
    5-day window does. *)
Theorem window_starts_exclusive (prod price coeff : gmap Z Q)
    (availability : gmap Z Z) (capacity fixed_cost : Q) (m : Model)
    (a : assignment) :
  build_model prod price coeff availability capacity fixed_cost = inr m ->
  feasible m a ->
  (a Split == 0 ->
     sumQ (fun d => a (Start5 d)) (T m) == 1 /\
     sumQ (fun d => a (Start3 d)) (T m) == 0 /\
     sumQ (fun d => a (Start2 d)) (T m) == 0) /\
  (a Split == 1 ->
     sumQ (fun d => a (Start3 d)) (T m) == 1 /\
     sumQ (fun d => a (Start2 d)) (T m) == 1 /\
     sumQ (fun d => a (Start5 d)) (T m) == 0).
Proof.
  intros Hb Hf.
  destruct (feasible_counts _ _ _ _ _ _ _ _ Hb Hf) as (H5 & H3 & H2).
  apply build_model_inr in Hb as (-> & _).
  unfold sum_from_to in H5, H3, H2. unfold RangeSet.
  split; intros Hs; rewrite Hs in H5, H3, H2; repeat split; lra.
Qed.

Lemma window_starts_exclusive_witness :
  exists m,
    build_model (uniform 10 1) (uniform 10 10) (uniform 10 1)
      (full_availability 10) 20 500 = inr m /\
    feasible m (one_window 3 10) /\
    (one_window 3 10 Split == 0 ->
       sumQ (fun d => one_window 3 10 (Start5 d)) (T m) == 1 /\
       sumQ (fun d => one_window 3 10 (Start3 d)) (T m) == 0 /\
       sumQ (fun d => one_window 3 10 (Start2 d)) (T m) == 0).
Proof.
  eexists. split; [vm_compute; reflexivity|].
  split; [apply feasibleb_sound; vm_compute; reflexivity|].
  apply (window_starts_exclusive (uniform 10 1) (uniform 10 10) (uniform 10 1)
           (full_availability 10) 20 500);
    [vm_compute; reflexivity|apply feasibleb_sound; vm_compute; reflexivity].
Defined.

(** ** The linking constraint *)

Lemma covering_range_binary (prod price coeff : gmap Z Q)
    (availability : gmap Z Z) (capacity fixed_cost : Q) (m : Model)
    (a : assignment) (x : Z -> var) (d w : Z) :
  build_model prod price coeff availability capacity fixed_cost = inr m ->
  feasible m a -> (1 <= d <= len prod)%Z ->
  x = Start5 \/ x = Start3 \/ x = Start2 ->
  forall k, k ∈ seqZ (Z.max 1 (d - w)) (d - Z.max 1 (d - w) + 1) ->
    is_binary (a (x k)).
Proof.
  intros Hb Hf Hd Hx k Hk. apply elem_of_seqZ in Hk.
  destruct (feasible_binary _ _ _ _ _ _ _ _ Hb Hf) as [_ Hbin].
  destruct (Hbin k) as (_ & ? & ? & ?); [lia|].
  destruct Hx as [->|[->| ->]]; done.
Qed.

(** C2. For every day [d] of the horizon the built model holds one linking
    constraint for [d]; an assignment satisfies it exactly when
    [Maintenance d] equals the number of 5-day starts on the days
    [max(1,d-4)..d] plus the 3-day starts on [max(1,d-2)..d] plus the 2-day
    starts on [max(1,d-1)..d].  In a feasible assignment day [d] is therefore
    under maintenance exactly when one of those windows started on one of
    those days. *)
Theorem link_maintenance_equality (prod price coeff : gmap Z Q)
    (availability : gmap Z Z) (capacity fixed_cost : Q) (m : Model) (d : Z) :
  build_model prod price coeff availability capacity fixed_cost = inr m ->
  (1 <= d <= len prod)%Z ->
  (exists c,
     (d, c) ∈ link_maintenance m /\
     (forall c', (d, c') ∈ link_maintenance m -> c' = c) /\
     lhs c = V (Maintenance d) /\
     forall a, eval a (rhs c)
       == sum_from_to (Z.max 1 (d - 4)) d (fun k => a (Start5 k))
          + sum_from_to (Z.max 1 (d - 2)) d (fun k => a (Start3 k))
          + sum_from_to (Z.max 1 (d - 1)) d (fun k => a (Start2 k))) /\
  (forall a, feasible m a ->
     (a (Maintenance d) == 1 <->
      (exists k, (Z.max 1 (d - 4) <= k <= d)%Z /\ a (Start5 k) == 1) \/
      (exists k, (Z.max 1 (d - 2) <= k <= d)%Z /\ a (Start3 k) == 1) \/
      (exists k, (Z.max 1 (d - 1) <= k <= d)%Z /\ a (Start2 k) == 1))).
Proof.
  intros Hb Hd. split.
  - pose proof Hb as Hb'.
    apply build_model_inr in Hb' as (_ & _ & _ & _ & _ & _ & _ & El & _).
    exists (link_maintenance_rule d). rewrite El. repeat split.
    + apply list_elem_of_fmap. exists d. split; [done|]. by apply elem_of_RangeSet.
    + intros c' Hc'. apply list_elem_of_fmap in Hc' as (d' & [= -> ->] & _). done.
    + intros a. simpl. rewrite !eval_py_sum_vars, !range_sum_from_to. reflexivity.
  - intros a Hf.
    pose proof (feasible_link _ _ _ _ _ _ _ _ d Hb Hf Hd) as Hlink.
    destruct (feasible_binary _ _ _ _ _ _ _ _ Hb Hf) as [_ Hbin].
    destruct (Hbin d Hd) as (Hm & _).
    pose proof (covering_range_binary _ _ _ _ _ _ _ _ Start5 d 4 Hb Hf Hd
                  (or_introl eq_refl)) as B5.
    pose proof (covering_range_binary _ _ _ _ _ _ _ _ Start3 d 2 Hb Hf Hd
                  (or_intror (or_introl eq_refl))) as B3.
    pose proof (covering_range_binary _ _ _ _ _ _ _ _ Start2 d 1 Hb Hf Hd
                  (or_intror (or_intror eq_refl))) as B2.
    unfold covering_starts, sum_from_to in Hlink.
    pose proof (sumQ_nonneg _ _ B5) as N5.
    pose proof (sumQ_nonneg _ _ B3) as N3.
    pose proof (sumQ_nonneg _ _ B2) as N2.
    split.
    + intros Hone.
      destruct (Qlt_le_dec 0 (sumQ (fun k => a (Start5 k))
                 (seqZ (Z.max 1 (d - 4)) (d - Z.max 1 (d - 4) + 1)))) as [P5|Z5].
      { left. apply sumQ_pos_inv in P5 as (k & Hk & ?); [|done].
        exists k. apply elem_of_seqZ in Hk. split; [lia|done]. }
      destruct (Qlt_le_dec 0 (sumQ (fun k => a (Start3 k))
                 (seqZ (Z.max 1 (d - 2)) (d - Z.max 1 (d - 2) + 1)))) as [P3|Z3].
      { right; left. apply sumQ_pos_inv in P3 as (k & Hk & ?); [|done].
        exists k. apply elem_of_seqZ in Hk. split; [lia|done]. }
      right; right.
      assert (0 < sumQ (fun k => a (Start2 k))
                 (seqZ (Z.max 1 (d - 1)) (d - Z.max 1 (d - 1) + 1))) as P2 by lra.
      apply sumQ_pos_inv in P2 as (k & Hk & ?); [|done].
      exists k. apply elem_of_seqZ in Hk. split; [lia|done].
    + assert (forall (x : Z -> var) w,
                (forall k, k ∈ seqZ (Z.max 1 (d - w)) (d - Z.max 1 (d - w) + 1) ->
                   is_binary (a (x k))) ->
                (exists k, (Z.max 1 (d - w) <= k <= d)%Z /\ a (x k) == 1) ->
                1 <= sumQ (fun k => a (x k))
                       (seqZ (Z.max 1 (d - w)) (d - Z.max 1 (d - w) + 1))) as Hge.
      { intros x w Bx (k & Hk & Hone).
        rewrite <- Hone. apply (sumQ_elem_le (fun k => a (x k))); [done|].
        apply elem_of_seqZ. lia. }
      intros [H|[H|H]]; apply Hge in H; try done;
        destruct Hm as [?|?]; lra.
Qed.

Lemma link_maintenance_equality_witness :
  exists m,
    build_model (uniform 10 1) (uniform 10 10) (uniform 10 1)
      (full_availability 10) 20 500 = inr m /\
    (1 <= 7 <= len (uniform 10 1%Q))%Z /\
    forall a, feasible m a ->
      (a (Maintenance 7) == 1 <->
       (exists k, (Z.max 1 (7 - 4) <= k <= 7)%Z /\ a (Start5 k) == 1) \/
       (exists k, (Z.max 1 (7 - 2) <= k <= 7)%Z /\ a (Start3 k) == 1) \/
       (exists k, (Z.max 1 (7 - 1) <= k <= 7)%Z /\ a (Start2 k) == 1)).
Proof.
  eexists. split; [vm_compute; reflexivity|].
  split; [vm_compute; split; discriminate|].
  apply (link_maintenance_equality (uniform 10 1) (uniform 10 10) (uniform 10 1)
           (full_availability 10) 20 500);
    [vm_compute; reflexivity|vm_compute; split; discriminate].
Defined.

(** ** Unavailable days *)

Lemma unavailable_starts_in_fixed (prod price coeff : gmap Z Q)
    (availability : gmap Z Z) (capacity fixed_cost : Q) (m : Model) (d : Z) :
  build_model prod price coeff availability capacity fixed_cost = inr m ->
  d ∈ T m -> unavailable availability d ->
  (Start5 d, 0) ∈ fixed m /\ (Start3 d, 0) ∈ fixed m /\
  (Start2 d, 0) ∈ fixed m.
Proof.
  intros Hb Hd (v & Hv & Hnot).
  apply build_model_inr in Hb as (HT & _ & _ & Hfix & _).
  rewrite HT in Hd.
  apply fix_unavailable_spec in Hfix as (_ & Hdays & _).
  destruct (Hdays d Hd) as (w & Hget & Hin).
  apply getitem_inr in Hget as [_ Hget]. simpl in Hget.
  assert (w = v) as -> by congruence. auto.
Qed.

Lemma unavailable_starts_zero (prod price coeff : gmap Z Q)
    (availability : gmap Z Z) (capacity fixed_cost : Q) (m : Model)
    (a : assignment) (d : Z) :
  build_model prod price coeff availability capacity fixed_cost = inr m ->
  feasible m a -> d ∈ T m -> unavailable availability d ->
  a (Start5 d) == 0 /\ a (Start3 d) == 0 /\ a (Start2 d) == 0.
Proof.
  intros Hb (_ & Hfx & _) Hd Hun. rewrite Forall_forall in Hfx.
  destruct (unavailable_starts_in_fixed _ _ _ _ _ _ _ _ Hb Hd Hun)
    as (I5 & I3 & I2).
  split; [|split]; [apply (Hfx _ I5)|apply (Hfx _ I3)|apply (Hfx _ I2)].
Qed.

(** C4. On a day [d] whose availability is false the built model fixes
    [Start5 d], [Start3 d] and [Start2 d] to [0], so that in every feasible
    assignment no window of any type starts on [d]. *)
Theorem unavailable_starts_fixed (prod price coeff : gmap Z Q)
    (availability : gmap Z Z) (capacity fixed_cost : Q) (m : Model)
    (d v : Z) :
  build_model prod price coeff availability capacity fixed_cost = inr m ->
  d ∈ T m -> availability !! d = Some v -> py_not v = true ->
  ((Start5 d, 0) ∈ fixed m /\ (Start3 d, 0) ∈ fixed m /\
   (Start2 d, 0) ∈ fixed m) /\
  (forall a, feasible m a ->
     a (Start5 d) == 0 /\ a (Start3 d) == 0 /\ a (Start2 d) == 0).
Proof.
  intros Hb Hd Hv Hnot.
  assert (unavailable availability d) as Hun by (exists v; done).
  split; [by eapply unavailable_starts_in_fixed|].
  intros a Hf. by eapply unavailable_starts_zero.
Qed.

Lemma unavailable_starts_fixed_witness :
  exists m,
    build_model (uniform 10 1) (uniform 10 10) (uniform 10 1)
      (blackout_availability 4 10 10) 20 500 = inr m /\
    (6%Z ∈ T m /\ blackout_availability 4 10 10 !! 6%Z = Some 0%Z) /\
    ((Start5 6, 0) ∈ fixed m /\ (Start3 6, 0) ∈ fixed m /\
     (Start2 6, 0) ∈ fixed m) /\
    (forall a, feasible m a ->
       a (Start5 6) == 0 /\ a (Start3 6) == 0 /\ a (Start2 6) == 0).
Proof.
  eexists. split; [vm_compute; reflexivity|].
  split; [split; [apply (bool_decide_unpack _)|]; vm_compute; reflexivity|].
  apply (unavailable_starts_fixed (uniform 10 1) (uniform 10 10) (uniform 10 1)
           (blackout_availability 4 10 10) 20 500 _ 6 0);
    [vm_compute; reflexivity|apply (bool_decide_unpack _); vm_compute; reflexivity
    |vm_compute; reflexivity|reflexivity].
Defined.

(** ** The objective *)


Lemma profit_terms_defined (capacity fixed_cost : Q) (days index : list Z)
    (prod price coeff : gmap Z Q) (terms : list expr) :
  profit_terms capacity fixed_cost (mkParam index prod) (mkParam index price)
    (mkParam index coeff) days = inr terms ->
  forall d, d ∈ days ->
    is_Some (prod !! d) /\ is_Some (price !! d) /\ is_Some (coeff !! d).
Proof.
  revert terms; induction days as [|day days IH]; intros terms; simpl.
  - intros _ d Hd. set_solver.
  - intros Hrun d Hd. apply bind_inr in Hrun as (t & Ht & Hrun).
    apply bind_inr in Hrun as (ts & Hts & _).
    rewrite elem_of_cons in Hd. destruct Hd as [->|Hd]; [|by eapply IH].
    unfold profit_term in Ht.
    apply bind_inr in Ht as (p & Hp & Ht).
    apply bind_inr in Ht as (pr & Hpr & Ht).
    apply bind_inr in Ht as (c & Hc & _).
    apply getitem_inr in Hp as [_ Hp], Hpr as [_ Hpr], Hc as [_ Hc].
    simpl in Hp, Hpr, Hc. eauto.
Qed.



(** ** The report of [print_solution] *)

Lemma py_gt_true (x y : Q) : py_gt x y = true <-> y < x.
Proof.
  unfold py_gt. rewrite negb_true_iff, <- not_true_iff_false, Qle_bool_iff.
  split; [apply Qnot_le_lt|apply Qlt_not_le].
Qed.

Lemma value_expr_loaded (a : assignment) (e : expr) :
  value_expr (loaded a) e = inr (eval a e).
Proof.
  induction e as [q|v|x IHx y IHy|x IHx y IHy|x IHx y IHy]; simpl;
    try rewrite IHx, IHy; reflexivity.
Qed.

Lemma report_start5_loaded (a : assignment) (days : list Z) :
  report_start5 (loaded a) days
  = inr (flat_map (fun d => if py_gt (a (Start5 d)) (1 # 2)
                            then [WindowStart 5 d] else []) days).
Proof. induction days as [|d days IH]; simpl; [|rewrite IH]; reflexivity. Qed.

Lemma report_start3_start2_loaded (a : assignment) (days : list Z) :
  report_start3_start2 (loaded a) days
  = inr (flat_map (fun d =>
           (if py_gt (a (Start3 d)) (1 # 2) then [WindowStart 3 d] else [])
           ++ (if py_gt (a (Start2 d)) (1 # 2) then [WindowStart 2 d] else []))
         days).
Proof.
  induction days as [|d days IH]; simpl; [|rewrite IH; simpl; rewrite app_assoc];
    reflexivity.
Qed.

(** What [print_solution] prints for an optimal answer with all values
    loaded. *)
Lemma print_solution_loaded (model : Model) (a : assignment) (results : Results) :
  status results = ss_ok -> termination_condition results = tc_optimal ->
  print_solution model (loaded a) results
  = inr (Text "Optimal solution found."
         :: (if py_eq (a Split) 0
             then Text "Chosen strategy: 5-day maintenance."
                  :: flat_map (fun d => if py_gt (a (Start5 d)) (1 # 2)
                                        then [WindowStart 5 d] else []) (T model)
             else Text "Chosen strategy: 3-day + 2-day maintenance."
                  :: flat_map (fun d =>
                       (if py_gt (a (Start3 d)) (1 # 2)
                        then [WindowStart 3 d] else [])
                       ++ (if py_gt (a (Start2 d)) (1 # 2)
                           then [WindowStart 2 d] else [])) (T model))
         ++ [TotalRevenue (py_round2 (eval a (profit model)))]).
Proof.
  intros Hs Ht. unfold print_solution. rewrite Hs, Ht. simpl.
  destruct (py_eq (a Split) 0); simpl.
  - rewrite report_start5_loaded. simpl. rewrite value_expr_loaded. reflexivity.
  - rewrite report_start3_start2_loaded. simpl. rewrite value_expr_loaded.
    reflexivity.
Qed.

(** C5. For every answer whose status is not [ok] with termination
    condition [optimal], [print_solution] returns normally, whatever the
    variables hold (even nothing), and prints the single line
    "No feasible solution or solver error.": no strategy, no window start
    and no revenue. *)
Theorem no_solution_reported (model : Model) (vals : valuation)
    (results : Results) :
  status results <> ss_ok \/ termination_condition results <> tc_optimal ->
  print_solution model vals results
    = inr [Text "No feasible solution or solver error."] /\
  forall out, print_solution model vals results = inr out ->
    (forall w d, WindowStart w d ∉ out) /\
    (forall v, TotalRevenue v ∉ out) /\
    (Text "Chosen strategy: 5-day maintenance." ∉ out) /\
    (Text "Chosen strategy: 3-day + 2-day maintenance." ∉ out) /\
    (Text "Optimal solution found." ∉ out).
Proof.
  intros Hbad.
  assert (print_solution model vals results
          = inr [Text "No feasible solution or solver error."]) as Hout.
  { unfold print_solution.
    destruct Hbad as [Hs|Ht].
    - rewrite (bool_decide_eq_false_2 _ Hs). reflexivity.
    - rewrite (bool_decide_eq_false_2 _ Ht), andb_false_r. reflexivity. }
  split; [done|]. intros out Hout'. rewrite Hout in Hout'.
  injection Hout' as <-.
  repeat split; intros; intros Hin; apply list_elem_of_singleton in Hin;
    discriminate.
Qed.

Lemma no_solution_reported_witness :
  exists m,
    build_model (uniform 10 1) (uniform 10 10) (uniform 10 1)
      (blackout_availability 1 10 10) 20 500 = inr m /\
    (status (mkResults ss_ok tc_infeasible) <> ss_ok \/
     termination_condition (mkResults ss_ok tc_infeasible) <> tc_optimal) /\
    print_solution m (fun _ => None) (mkResults ss_ok tc_infeasible)
    = inr [Text "No feasible solution or solver error."].
Proof.
  eexists. split; [vm_compute; reflexivity|].
  split; [right; discriminate|].
  apply no_solution_reported. right. discriminate.
Defined.

Lemma elem_of_reported_start5 (a : assignment) (days : list Z) (w d : Z) :
  WindowStart w d
    ∈ flat_map (fun d => if py_gt (a (Start5 d)) (1 # 2)
                         then [WindowStart 5 d] else []) days
  <-> w = 5%Z /\ d ∈ days /\ 1 # 2 < a (Start5 d).
Proof.
  rewrite list_elem_of_In, in_flat_map. split.
  - intros (x & Hx & Hin). destruct (py_gt (a (Start5 x)) (1 # 2)) eqn:E;
      simpl in Hin; [|done].
    destruct Hin as [[= <- <-]|[]]. apply py_gt_true in E.
    by rewrite list_elem_of_In.
  - intros (-> & Hd & Hgt). exists d. split; [by apply list_elem_of_In|].
    apply py_gt_true in Hgt. rewrite Hgt. by left.
Qed.

Lemma elem_of_reported_start3_start2 (a : assignment) (days : list Z) (w d : Z) :
  WindowStart w d
    ∈ flat_map (fun d =>
        (if py_gt (a (Start3 d)) (1 # 2) then [WindowStart 3 d] else [])
        ++ (if py_gt (a (Start2 d)) (1 # 2) then [WindowStart 2 d] else []))
      days
  <-> d ∈ days /\ ((w = 3%Z /\ 1 # 2 < a (Start3 d)) \/
                   (w = 2%Z /\ 1 # 2 < a (Start2 d))).
Proof.
  rewrite list_elem_of_In, in_flat_map. split.
  - intros (x & Hx & Hin). apply in_app_or in Hin.
    destruct (py_gt (a (Start3 x)) (1 # 2)) eqn:E3;
      destruct (py_gt (a (Start2 x)) (1 # 2)) eqn:E2; simpl in Hin;
      destruct Hin as [Hin|Hin]; try done;
      destruct Hin as [[= <- <-]|[]]; rewrite list_elem_of_In;
      (split; [done|]); [left|right|left|right]; split; try done;
      by apply py_gt_true.
  - intros (Hd & Hw). exists d. split; [by apply list_elem_of_In|].
    apply in_or_app.
    destruct Hw as [[-> Hgt]|[-> Hgt]]; apply py_gt_true in Hgt; rewrite Hgt;
      [left|right]; by left.
Qed.

Lemma Text_not_reported_start5 (a : assignment) (days : list Z) (u : string) :
  Text u ∉ flat_map (fun d => if py_gt (a (Start5 d)) (1 # 2)
                              then [WindowStart 5 d] else []) days.
Proof.
  rewrite list_elem_of_In, in_flat_map. intros (x & _ & H).
  destruct (py_gt (a (Start5 x)) (1 # 2)); simpl in H; intuition discriminate.
Qed.

Lemma Text_not_reported_start3_start2 (a : assignment) (days : list Z)
    (u : string) :
  Text u ∉ flat_map (fun d =>
      (if py_gt (a (Start3 d)) (1 # 2) then [WindowStart 3 d] else [])
      ++ (if py_gt (a (Start2 d)) (1 # 2) then [WindowStart 2 d] else []))
    days.
Proof.
  rewrite list_elem_of_In, in_flat_map. intros (x & _ & H).
  apply in_app_or in H.
  destruct (py_gt (a (Start3 x)) (1 # 2));
    destruct (py_gt (a (Start2 x)) (1 # 2)); simpl in H; intuition discriminate.
Qed.

Lemma Text_elem_of_report (s t : string) (starts : list line) (v : Q) :
  (forall u, Text u ∉ starts) ->
  Text s ∈ Text "Optimal solution found." :: (Text t :: starts) ++ [TotalRevenue v]
  <-> s = "Optimal solution found."%string \/ s = t.
Proof.
  intros Hno.
  rewrite elem_of_cons, elem_of_app, elem_of_cons, list_elem_of_singleton.
  split.
  - intros [[= ->]|[[[= ->]|H]|[=]]]; [by left|by right|by destruct (Hno s)].
  - intros [->| ->]; [by left|right; left; by left].
Qed.

Lemma WindowStart_elem_of_report (w d : Z) (t : string) (starts : list line)
    (v : Q) :
  WindowStart w d
    ∈ Text "Optimal solution found." :: (Text t :: starts) ++ [TotalRevenue v]
  <-> WindowStart w d ∈ starts.
Proof.
  rewrite elem_of_cons, elem_of_app, elem_of_cons, list_elem_of_singleton.
  split; [|by auto]. by intros [[=]|[[[=]|H]|[=]]].
Qed.

(** C10. For an optimal answer the strategy line is chosen by comparing
    the value of [Split] with [0] exactly: the 5-day strategy is printed
    exactly when the value equals [0], and the 3-day + 2-day strategy for
    every other value, however close to [0]. *)
Theorem strategy_by_exact_zero_test (model : Model) (a : assignment)
    (results : Results) :
  status results = ss_ok -> termination_condition results = tc_optimal ->
  exists out,
    print_solution model (loaded a) results = inr out /\
    (Text "Chosen strategy: 5-day maintenance." ∈ out <-> a Split == 0) /\
    (Text "Chosen strategy: 3-day + 2-day maintenance." ∈ out
     <-> ~ a Split == 0).
Proof.
  intros Hs Ht. eexists. split; [by apply print_solution_loaded|].
  unfold py_eq. destruct (Qeq_bool (a Split) 0) eqn:E.
  - apply Qeq_bool_iff in E.
    rewrite !Text_elem_of_report by apply Text_not_reported_start5.
    split; split; try done; auto.
    intros [H|H]; discriminate.
  - assert (~ a Split == 0) as Hne
      by (intros H; apply Qeq_bool_iff in H; congruence).
    rewrite !Text_elem_of_report by apply Text_not_reported_start3_start2.
    split; split; try done; auto.
    intros [H|H]; discriminate.
Qed.

Lemma strategy_by_exact_zero_test_witness :
  exists m,
    build_model (uniform 10 1) (uniform 10 10) (uniform 10 1)
      (full_availability 10) 20 500 = inr m /\
    exists out,
      print_solution m (loaded (near_integral (1 # 1000000000)))
        (mkResults ss_ok tc_optimal) = inr out /\
      Text "Chosen strategy: 3-day + 2-day maintenance." ∈ out.
Proof.
  eexists. split; [vm_compute; reflexivity|].
  match goal with
  | |- context [print_solution ?m _ _] =>
      destruct (strategy_by_exact_zero_test m
                  (near_integral (1 # 1000000000)) (mkResults ss_ok tc_optimal)
                  eq_refl eq_refl) as (out & Hout & _ & Hsplit)
  end.
  exists out. split; [exact Hout|].
  apply Hsplit. vm_compute. discriminate.
Defined.

(** C7 (amended). For an optimal answer, within the branch chosen by the
    value of [Split], a start variable is reported exactly when its value
    is strictly greater than 0.5 (a value of exactly 0.5 is not reported):
    when [Split] equals [0] the reported starts are the days [d] of the
    horizon with [Start5 d > 0.5]; otherwise they are the days with
    [Start3 d > 0.5] and the days with [Start2 d > 0.5].  The start
    variables of the other strategy are not reported, whatever their value. *)
Theorem start_reported_iff_above_half_in_branch (model : Model)
    (a : assignment) (results : Results) :
  status results = ss_ok -> termination_condition results = tc_optimal ->
  exists out,
    print_solution model (loaded a) results = inr out /\
    (a Split == 0 ->
       forall w d, WindowStart w d ∈ out
                   <-> w = 5%Z /\ d ∈ T model /\ 1 # 2 < a (Start5 d)) /\
    (~ a Split == 0 ->
       forall w d, WindowStart w d ∈ out
                   <-> d ∈ T model /\
                       ((w = 3%Z /\ 1 # 2 < a (Start3 d)) \/
                        (w = 2%Z /\ 1 # 2 < a (Start2 d)))).
Proof.
  intros Hs Ht. eexists. split; [by apply print_solution_loaded|].
  unfold py_eq. destruct (Qeq_bool (a Split) 0) eqn:E.
  - apply Qeq_bool_iff in E. split; [|done].
    intros _ w d. rewrite WindowStart_elem_of_report.
    apply elem_of_reported_start5.
  - assert (~ a Split == 0) as Hne
      by (intros H; apply Qeq_bool_iff in H; congruence).
    split; [done|].
    intros _ w d. rewrite WindowStart_elem_of_report.
    apply elem_of_reported_start3_start2.
Qed.

Lemma start_reported_iff_above_half_in_branch_witness :
  exists m,
    build_model (uniform 10 1) (uniform 10 10) (uniform 10 1)
      (full_availability 10) 20 500 = inr m /\
    exists out,
      print_solution m (loaded (two_windows 2 6 10))
        (mkResults ss_ok tc_optimal) = inr out /\
      forall w d, WindowStart w d ∈ out
                  <-> d ∈ T m /\
                      ((w = 3%Z /\ 1 # 2 < two_windows 2 6 10 (Start3 d)) \/
                       (w = 2%Z /\ 1 # 2 < two_windows 2 6 10 (Start2 d))).
Proof.
  eexists. split; [vm_compute; reflexivity|].
  match goal with
  | |- context [print_solution ?m _ _] =>
      destruct (start_reported_iff_above_half_in_branch m
                  (two_windows 2 6 10) (mkResults ss_ok tc_optimal)
                  eq_refl eq_refl) as (out & Hout & _ & Hsplit)
  end.
  exists out. split; [exact Hout|].
  apply Hsplit. vm_compute. discriminate.
Defined.

(** C7, as stated, fails: in this optimal answer every equality constraint
    of the model holds, [Start5 1] has the value [1 - 1e-9 > 0.5], and no
    5-day start is reported for day 1, because [Split = 1e-9] is not [0]. *)
Lemma start5_above_half_not_reported :
  exists m,
    build_model (uniform 10 1) (uniform 10 10) (uniform 10 1)
      (full_availability 10) 20 500 = inr m /\
    satisfiesb m (near_integral (1 # 1000000000)) = true /\
    exists out,
      print_solution m (loaded (near_integral (1 # 1000000000)))
        (mkResults ss_ok tc_optimal) = inr out /\
      1%Z ∈ T m /\
      ~ (WindowStart 5 1 ∈ out
         <-> 1 # 2 < near_integral (1 # 1000000000) (Start5 1)).
Proof.
  eexists. split; [vm_compute; reflexivity|].
  split; [vm_compute; reflexivity|].
  eexists. split; [vm_compute; reflexivity|].
  split; [apply (bool_decide_unpack _); vm_compute; reflexivity|].
  intros [_ H].
  assert (1 # 2 < near_integral (1 # 1000000000) (Start5 1)) as Hgt
    by (vm_compute; reflexivity).
  apply H, list_elem_of_In in Hgt. simpl in Hgt. intuition discriminate.
Qed.

(** ** The horizon *)

Lemma fold_left_max_spec (ks : list Z) (k : Z) :
  let r := fold_left Z.max ks k in
  (r = k \/ r ∈ ks) /\ (k <= r)%Z /\ forall x, x ∈ ks -> (x <= r)%Z.
Proof.
  revert k; induction ks as [|y ks IH]; intros k; simpl.
  - split; [by left|]. split; [lia|]. intros x Hx. set_solver.
  - destruct (IH (Z.max k y)) as (Hin & Hle & Hall). split; [|split].
    + destruct Hin as [Hr|Hr]; [|right; set_solver].
      rewrite Hr. destruct (Z.max_spec k y) as [[_ ->]|[_ ->]];
        [right; set_solver|by left].
    + lia.
    + intros x Hx. rewrite elem_of_cons in Hx. destruct Hx as [->|Hx]; [lia|auto].
Qed.

(** A dict all of whose keys lie in [1..len] has every day of [1..len] as
    a key. *)
Lemma keys_fill_range {V : Type} (d : gmap Z V) :
  (forall k v, d !! k = Some v -> k ∈ RangeSet 1 (len d)) ->
  forall k, (1 <= k <= len d)%Z -> is_Some (d !! k).
Proof.
  intros Hkeys k Hk. apply (elem_of_dom (D := gset Z)).
  assert (dom d = list_to_set (RangeSet 1 (len d))) as ->.
  { apply set_subseteq_size_eq.
    - intros x Hx. apply elem_of_dom in Hx as [v Hv].
      apply elem_of_list_to_set. by eapply Hkeys.
    - rewrite size_dom, size_list_to_set by apply NoDup_RangeSet.
      unfold RangeSet, len. rewrite length_seqZ. lia. }
  apply elem_of_list_to_set. by apply elem_of_RangeSet.
Qed.

(** C8. The day index set of a built model is [1..len(prod)], and whenever
    the forecast has a maximum day index (it is not empty) that index is
    [len(prod)]: the horizon of the model is the maximum day index of the
    forecast. *)
Theorem horizon_is_max_forecast_day (prod price coeff : gmap Z Q)
    (availability : gmap Z Z) (capacity fixed_cost : Q) (m : Model) :
  build_model prod price coeff availability capacity fixed_cost = inr m ->
  (forall k, max_keys prod = inr k -> T m = RangeSet 1 k) /\
  (prod <> ∅ -> max_keys prod = inr (len prod)).
Proof.
  intros Hb. apply build_model_inr in Hb as (HT & Hkeys & _).
  assert (prod <> ∅ -> max_keys prod = inr (len prod)) as Hmax.
  { intros Hne. unfold max_keys.
    destruct ((map_to_list prod).*1) as [|k ks] eqn:Eks.
    { apply fmap_nil_inv, map_to_list_empty_iff in Eks. done. }
    assert (forall x, x ∈ k :: ks <-> is_Some (prod !! x)) as Hin.
    { intros x. rewrite <- Eks, list_elem_of_fmap. split.
      - intros ([y v] & -> & Hyv). apply elem_of_map_to_list in Hyv. eauto.
      - intros [v Hv]. exists (x, v). split; [done|].
        by apply elem_of_map_to_list. }
    destruct (fold_left_max_spec ks k) as (Hr & Hle & Hall).
    unfold ret. f_equal. apply Z.le_antisymm.
    - assert (fold_left Z.max ks k ∈ k :: ks) as Hmem
        by (destruct Hr as [->|?]; set_solver).
      apply Hin in Hmem as [v Hv]. apply Hkeys, elem_of_RangeSet in Hv. lia.
    - assert (1 <= len prod)%Z as Hpos.
      { assert (k ∈ k :: ks) as Hk by set_solver.
        apply Hin in Hk as [v Hv]. apply Hkeys, elem_of_RangeSet in Hv. lia. }
      assert (len prod ∈ k :: ks) as Hlast.
      { apply Hin, keys_fill_range; [done|lia]. }
      rewrite elem_of_cons in Hlast. destruct Hlast as [<-|Hlast]; [done|auto]. }
  split; [|done].
  intros k Hk. rewrite HT.
  destruct (decide (prod = ∅)) as [->|Hne]; [discriminate|].
  rewrite (Hmax Hne) in Hk. by injection Hk as <-.
Qed.

Lemma horizon_is_max_forecast_day_witness :
  exists m,
    build_model (uniform 10 1) (uniform 10 10) (uniform 10 1)
      (full_availability 10) 20 500 = inr m /\
    max_keys (uniform 10 1%Q) = inr 10%Z /\
    T m = RangeSet 1 10.
Proof.
  eexists. split; [vm_compute; reflexivity|].
  split; [vm_compute; reflexivity|].
  apply (horizon_is_max_forecast_day (uniform 10 1) (uniform 10 10)
           (uniform 10 1) (full_availability 10) 20 500);
    vm_compute; reflexivity.
Defined.

(** ** Maintenance on unavailable days *)

(** What the constraints give on an unavailable day [d]: no window starts
    on [d], and [Maintenance d = 0] follows only when the earlier days whose
    windows reach [d] (the days [max(1,d-4)..d-1]) are unavailable as well.
    No constraint of the model keeps an unavailable day free of
    maintenance. *)
Lemma unavailable_day_without_reaching_start (prod price coeff : gmap Z Q)
    (availability : gmap Z Z) (capacity fixed_cost : Q) (m : Model)
    (a : assignment) (d : Z) :
  build_model prod price coeff availability capacity fixed_cost = inr m ->
  feasible m a -> d ∈ T m -> unavailable availability d ->
  (a (Start5 d) == 0 /\ a (Start3 d) == 0 /\ a (Start2 d) == 0) /\
  ((forall k, (Z.max 1 (d - 4) <= k < d)%Z -> unavailable availability k) ->
   a (Maintenance d) == 0).
Proof.
  intros Hb Hf Hd Hun.
  split; [by eapply unavailable_starts_zero|]. intros Hbefore.
  pose proof Hb as Hb'. apply build_model_inr in Hb' as (HT & _).
  rewrite HT in Hd. apply elem_of_RangeSet in Hd.
  rewrite (feasible_link _ _ _ _ _ _ _ _ d Hb Hf Hd).
  assert (forall k, (Z.max 1 (d - 4) <= k <= d)%Z ->
            a (Start5 k) == 0 /\ a (Start3 k) == 0 /\ a (Start2 k) == 0) as Hz.
  { intros k Hk. eapply unavailable_starts_zero; [done..| |].
    - rewrite HT. apply elem_of_RangeSet. lia.
    - destruct (decide (k = d)) as [->|?]; [done|apply Hbefore; lia]. }
  unfold covering_starts, sum_from_to.
  rewrite !sumQ_zero; [lra|..]; intros k Hk; apply elem_of_seqZ in Hk;
    apply Hz; lia.
Qed.

(** C9. The code does not keep the claim.  In the second scenario of the
    script (the days 150..200 unavailable, which lines 106 and 113 call the
    no-maintenance window), over a horizon of 152 days, the 5-day window
    started on the available day 149 is a feasible assignment of the built
    model, and it puts the unavailable days 150, 151 and 152 under
    maintenance. *)
Theorem maintenance_inside_no_maintenance_window :
  exists m,
    build_model (uniform 152 1) (uniform 152 10) (uniform 152 1)
      (blackout_availability 150 200 152) 20 500 = inr m /\
    feasible m (one_window 149 152) /\
    (forall d, (150 <= d <= 152)%Z ->
       d ∈ T m /\ unavailable (blackout_availability 150 200 152) d /\
       one_window 149 152 (Maintenance d) == 1) /\
    maintenance_days m (one_window 149 152) = [149; 150; 151; 152]%Z.
Proof.
  eexists. split; [vm_compute; reflexivity|].
  split; [apply feasibleb_sound; vm_compute; reflexivity|].
  split; [|vm_compute; reflexivity].
  intros d Hd.
  assert (d = 150 \/ d = 151 \/ d = 152)%Z as [->|[->| ->]] by lia;
    (split; [apply (bool_decide_unpack _); vm_compute; reflexivity|]);
    (split; [exists 0%Z; split; vm_compute; reflexivity|reflexivity]).
Qed.

(** ** The runs of maintenance days *)

Lemma filter_none {A : Type} (P : A -> bool) (l : list A) :
  (forall x, x ∈ l -> P x = false) -> List.filter P l = [].
Proof.
  induction l as [|x l IH]; intros HP; simpl; [done|].
  rewrite (HP x) by set_solver. apply IH. intros; apply HP; set_solver.
Qed.

Lemma filter_all {A : Type} (P : A -> bool) (l : list A) :
  (forall x, x ∈ l -> P x = true) -> List.filter P l = l.
Proof.
  induction l as [|x l IH]; intros HP; simpl; [done|].
  rewrite (HP x) by set_solver. f_equal. apply IH. intros; apply HP; set_solver.
Qed.

(** Filtering the days [lo..lo+n-1] by a test that holds exactly on
    [s..e] leaves the run [s..e]. *)
Lemma filter_seqZ_interval (P : Z -> bool) (lo n s e : Z) :
  (lo <= s)%Z -> (s <= e + 1)%Z -> (e < lo + n)%Z ->
  (forall d, (lo <= d < lo + n)%Z -> (P d = true <-> (s <= d <= e)%Z)) ->
  List.filter P (seqZ lo n) = seqZ s (e - s + 1).
Proof.
  intros Hlo Hse He HP.
  replace n with ((s - lo) + ((e - s + 1) + (lo + n - e - 1)))%Z by lia.
  rewrite !seqZ_app by lia. rewrite !List.filter_app.
  replace (lo + (s - lo))%Z with s by lia.
  rewrite filter_none, filter_all, filter_none, app_nil_r; [done|..].
  - intros d Hd. apply elem_of_seqZ in Hd. apply not_true_iff_false.
    rewrite HP by lia. lia.
  - intros d Hd. apply elem_of_seqZ in Hd. apply HP; lia.
  - intros d Hd. apply elem_of_seqZ in Hd. apply not_true_iff_false.
    rewrite HP by lia. lia.
Qed.

(** A family that vanishes on the horizon away from [s] sums, over a range
    of days inside the horizon, to its value at [s] or to nothing. *)
Lemma interval_sum_indicator (f : Z -> Q) (n s lo hi : Z) :
  (forall d, (1 <= d <= n)%Z -> d <> s -> f d == 0) ->
  (1 <= lo)%Z -> (hi <= n)%Z ->
  sum_from_to lo hi f == if decide (lo <= s <= hi)%Z then f s else 0.
Proof.
  intros Hz Hlo Hhi. unfold sum_from_to.
  etransitivity; [apply (sumQ_single f s); [apply NoDup_seqZ|]|].
  - intros d Hd ?. apply elem_of_seqZ in Hd. apply Hz; [lia|done].
  - destruct (decide (s ∈ seqZ lo (hi - lo + 1))) as [Hin|Hin];
      rewrite elem_of_seqZ in Hin; case_decide; try reflexivity; lia.
Qed.

Lemma interval_sum_zero (f : Z -> Q) (n lo hi : Z) :
  (forall d, (1 <= d <= n)%Z -> f d == 0) ->
  (1 <= lo)%Z -> (hi <= n)%Z -> sum_from_to lo hi f == 0.
Proof.
  intros Hz Hlo Hhi. apply sumQ_zero. intros d Hd.
  apply elem_of_seqZ in Hd. apply Hz. lia.
Qed.

(** The one day a binary family selects when it sums to one over the
    horizon, and no day when it sums to zero. *)
Lemma one_start (f : Z -> Q) (n : Z) :
  (forall d, (1 <= d <= n)%Z -> is_binary (f d)) ->
  sum_from_to 1 n f == 1 ->
  exists s, (1 <= s <= n)%Z /\ f s == 1 /\
            forall d, (1 <= d <= n)%Z -> d <> s -> f d == 0.
Proof.
  intros Hb Hs. unfold sum_from_to in Hs.
  destruct (sumQ_one_inv f (seqZ 1 (n - 1 + 1))) as (s & Hin & Hone & Hrest);
    [intros d Hd; apply elem_of_seqZ in Hd; apply Hb; lia|done|].
  apply elem_of_seqZ in Hin.
  exists s. split; [lia|]. split; [done|].
  intros d Hd Hne. apply Hrest; [apply NoDup_seqZ| |done].
  apply elem_of_seqZ. lia.
Qed.

Lemma no_start (f : Z -> Q) (n : Z) :
  (forall d, (1 <= d <= n)%Z -> is_binary (f d)) ->
  sum_from_to 1 n f == 0 ->
  forall d, (1 <= d <= n)%Z -> f d == 0.
Proof.
  intros Hb Hs d Hd. unfold sum_from_to in Hs.
  apply (sumQ_zero_inv f (seqZ 1 (n - 1 + 1))); [|done|apply elem_of_seqZ; lia].
  intros k Hk; apply elem_of_seqZ in Hk; apply Hb; lia.
Qed.

Lemma elem_of_maintenance_days (m : Model) (a : assignment) (d : Z) :
  d ∈ maintenance_days m a <-> d ∈ T m /\ a (Maintenance d) == 1.
Proof.
  unfold maintenance_days.
  rewrite !list_elem_of_In, filter_In, Qeq_bool_iff. reflexivity.
Qed.

(** C6 (amended). In a feasible assignment of a built model with horizon
    [n]: with [Split = 0] the days under maintenance are the single run that
    begins on the one day [s] with [Start5 s = 1] and counts
    [min(5, n - s + 1)] days; with [Split = 1] they are two disjoint runs
    (not overlapping, possibly adjacent) that begin on the one day [s3] with
    [Start3 s3 = 1] and the one day [s2] with [Start2 s2 = 1] and count
    [min(3, n - s3 + 1)] and [min(2, n - s2 + 1)] days.  A run is shortened
    only at the upper end of the horizon. *)
Theorem maintenance_runs (prod price coeff : gmap Z Q)
    (availability : gmap Z Z) (capacity fixed_cost : Q) (m : Model)
    (a : assignment) :
  build_model prod price coeff availability capacity fixed_cost = inr m ->
  feasible m a ->
  (a Split == 0 ->
     exists s, s ∈ T m /\ a (Start5 s) == 1 /\
       (forall d, d ∈ T m -> a (Start5 d) == 1 -> d = s) /\
       maintenance_days m a = seqZ s (Z.min 5 (len prod - s + 1))) /\
  (a Split == 1 ->
     exists s3 s2, s3 ∈ T m /\ s2 ∈ T m /\
       a (Start3 s3) == 1 /\ a (Start2 s2) == 1 /\
       (forall d, d ∈ T m -> a (Start3 d) == 1 -> d = s3) /\
       (forall d, d ∈ T m -> a (Start2 d) == 1 -> d = s2) /\
       (s3 + 2 < s2 \/ s2 + 1 < s3)%Z /\
       maintenance_days m a
       ≡ₚ seqZ s3 (Z.min 3 (len prod - s3 + 1))
          ++ seqZ s2 (Z.min 2 (len prod - s2 + 1))).
Proof.
  intros Hb Hf.
  destruct (feasible_binary _ _ _ _ _ _ _ _ Hb Hf) as [_ Hbin].
  destruct (feasible_counts _ _ _ _ _ _ _ _ Hb Hf) as (H5 & H3 & H2).
  pose proof (fun d => feasible_link _ _ _ _ _ _ _ _ d Hb Hf) as Hlink.
  pose proof Hb as Hb'. apply build_model_inr in Hb' as (HT & _).
  set (n := len prod) in *.
  assert (forall (x : Z -> var), x = Start5 \/ x = Start3 \/ x = Start2 ->
            forall d, (1 <= d <= n)%Z -> is_binary (a (x d))) as Hbx.
  { intros x Hx d Hd. destruct (Hbin d Hd) as (_ & ? & ? & ?).
    destruct Hx as [->|[->| ->]]; done. }
  assert (forall (x : Z -> var) s, x = Start5 \/ x = Start3 \/ x = Start2 ->
            (1 <= s <= n)%Z ->
            (forall d, (1 <= d <= n)%Z -> d <> s -> a (x d) == 0) ->
            forall d, d ∈ T m -> a (x d) == 1 -> d = s) as Huniq.
  { intros x s Hx Hs Hrest d Hd Hone. rewrite HT in Hd.
    apply elem_of_RangeSet in Hd.
    destruct (decide (d = s)) as [->|Hne]; [done|].
    rewrite (Hrest d Hd Hne) in Hone. lra. }
  split; intros Hsplit; rewrite Hsplit in H5, H3, H2.
  - destruct (one_start (fun d => a (Start5 d)) n) as (s & Hs & Hone & Hrest);
      [apply Hbx; auto|by rewrite H5|].
    pose proof (no_start (fun d => a (Start3 d)) n
                  ltac:(apply Hbx; auto) H3) as Z3.
    pose proof (no_start (fun d => a (Start2 d)) n
                  ltac:(apply Hbx; auto) H2) as Z2.
    exists s. split; [rewrite HT; by apply elem_of_RangeSet|].
    split; [done|]. split; [by apply (Huniq Start5); auto|].
    unfold maintenance_days. rewrite HT. unfold RangeSet.
    rewrite (filter_seqZ_interval _ 1 (n - 1 + 1) s (Z.min (s + 4) n));
      [f_equal; lia|lia..|].
    intros d Hd. rewrite Qeq_bool_iff, (Hlink d) by lia.
    unfold covering_starts.
    rewrite (interval_sum_indicator _ n s) by (done || lia).
    rewrite !(interval_sum_zero _ n) by (done || lia).
    case_decide; [rewrite Hone|]; split; intros; try lia; lra.
  - destruct (one_start (fun d => a (Start3 d)) n) as (s3 & Hs3 & One3 & Rest3);
      [apply Hbx; auto|done|].
    destruct (one_start (fun d => a (Start2 d)) n) as (s2 & Hs2 & One2 & Rest2);
      [apply Hbx; auto|done|].
    assert (sum_from_to 1 n (fun d => a (Start5 d)) == 0) as H5' by lra.
    pose proof (no_start (fun d => a (Start5 d)) n
                  ltac:(apply Hbx; auto) H5') as Z5.
    assert (forall d, (1 <= d <= n)%Z ->
              a (Maintenance d)
              == (if decide (s3 <= d <= s3 + 2)%Z then 1 else 0)
                 + (if decide (s2 <= d <= s2 + 1)%Z then 1 else 0)) as Hm.
    { intros d Hd. rewrite (Hlink d Hd). unfold covering_starts.
      rewrite (interval_sum_zero _ n) by (done || lia).
      rewrite (interval_sum_indicator _ n s3), (interval_sum_indicator _ n s2)
        by (done || lia).
      repeat case_decide; try lia; lra. }
    assert (s3 + 2 < s2 \/ s2 + 1 < s3)%Z as Hdisj.
    { destruct (decide (s3 + 2 < s2 \/ s2 + 1 < s3)%Z) as [?|Hov]; [done|].
      exfalso. pose proof (Hm (Z.max s3 s2) ltac:(lia)) as Hboth.
      destruct (Hbin (Z.max s3 s2) ltac:(lia)) as (Hbm & _).
      rewrite !decide_True in Hboth by lia.
      destruct Hbm as [Hbm|Hbm]; rewrite Hbm in Hboth; lra. }
    exists s3, s2.
    do 2 (split; [rewrite HT; by apply elem_of_RangeSet|]).
    do 2 (split; [done|]).
    split; [by apply (Huniq Start3); auto|].
    split; [by apply (Huniq Start2); auto|].
    split; [done|].
    apply NoDup_Permutation.
    + apply NoDup_ListNoDup, List.NoDup_filter, NoDup_ListNoDup.
      rewrite HT. apply NoDup_RangeSet.
    + apply NoDup_app. split; [apply NoDup_seqZ|]. split; [|apply NoDup_seqZ].
      intros d Hd Hd'. apply elem_of_seqZ in Hd, Hd'. lia.
    + intros d. rewrite elem_of_maintenance_days, HT, elem_of_RangeSet,
        elem_of_app, !elem_of_seqZ.
      split.
      * intros [Hd Hone]. rewrite (Hm d Hd) in Hone.
        repeat case_decide; try lia; lra.
      * intros Hd. assert (1 <= d <= n)%Z as Hd' by lia.
        split; [done|]. rewrite (Hm d Hd').
        repeat case_decide; try lia; lra.
Qed.

Lemma maintenance_runs_witness :
  exists m,
    build_model (uniform 10 1) (uniform 10 10) (uniform 10 1)
      (full_availability 10) 20 500 = inr m /\
    feasible m (one_window 8 10) /\
    (one_window 8 10 Split == 0 ->
       exists s, s ∈ T m /\ one_window 8 10 (Start5 s) == 1 /\
         (forall d, d ∈ T m -> one_window 8 10 (Start5 d) == 1 -> d = s) /\
         maintenance_days m (one_window 8 10)
         = seqZ s (Z.min 5 (len (uniform 10 1%Q) - s + 1))).
Proof.
  eexists. split; [vm_compute; reflexivity|].
  split; [apply feasibleb_sound; vm_compute; reflexivity|].
  apply (maintenance_runs (uniform 10 1) (uniform 10 10) (uniform 10 1)
           (full_availability 10) 20 500);
    [vm_compute; reflexivity|apply feasibleb_sound; vm_compute; reflexivity].
Defined.

(** Two runs may touch: the 3-day window of day 1 and the 2-day window of
    day 4 are feasible together and put the days 1..5 under maintenance. *)
Example adjacent_runs_feasible :
  exists m,
    build_model (uniform 10 1) (uniform 10 10) (uniform 10 1)
      (full_availability 10) 20 500 = inr m /\
    feasible m (two_windows 1 4 10) /\
    maintenance_days m (two_windows 1 4 10) = [1; 2; 3; 4; 5]%Z.
Proof.
  eexists. split; [vm_compute; reflexivity|].
  split; [apply feasibleb_sound; vm_compute; reflexivity|].
  vm_compute; reflexivity.
Qed.

(** C6, as stated, fails: over a horizon of ten days the 5-day window
    started on day 8 is feasible with [Split = 0], and the days under
    maintenance are 8, 9 and 10 only; they are no run of five days. *)
Lemma window_shortened_at_end_of_horizon :
  exists m,
    build_model (uniform 10 1) (uniform 10 10) (uniform 10 1)
      (full_availability 10) 20 500 = inr m /\
    feasible m (one_window 8 10) /\
    one_window 8 10 Split == 0 /\
    one_window 8 10 (Start5 8) == 1 /\
    maintenance_days m (one_window 8 10) = [8; 9; 10]%Z /\
    ~ exists s, maintenance_days m (one_window 8 10) = seqZ s 5.
Proof.
  eexists. split; [vm_compute; reflexivity|].
  split; [apply feasibleb_sound; vm_compute; reflexivity|].
  do 2 (split; [reflexivity|]).
  split; [vm_compute; reflexivity|].
  intros [s Hs]. apply (f_equal length) in Hs.
  rewrite length_seqZ in Hs. vm_compute in Hs. discriminate.
Qed.

(** ** When [build_model] returns *)

Lemma Param_keys_within {V : Type} (n : Z) (d : gmap Z V) :
  keys_within d n -> Param (RangeSet 1 n) d = inr (mkParam (RangeSet 1 n) d).
Proof.
  intros Hk. unfold Param. rewrite decide_True; [done|].
  intros k v Hkv. apply elem_of_RangeSet. by eapply Hk.
Qed.

Lemma Param_key_outside {V : Type} (n : Z) (d : gmap Z V) :
  ~ keys_within d n -> Param (RangeSet 1 n) d = inl KeyError.
Proof.
  intros Hk. unfold Param. rewrite decide_False; [done|].
  intros Hall. apply Hk. intros k v Hkv. apply elem_of_RangeSet.
  exact (Hall k v Hkv).
Qed.

Lemma Param_returns_keys_within {V : Type} (n : Z) (d : gmap Z V)
    (p : ParamOf V) :
  Param (RangeSet 1 n) d = inr p -> keys_within d n.
Proof.
  intros Hp. apply Param_inr in Hp as [_ Hk].
  intros k v Hkv. apply elem_of_RangeSet. by eapply Hk.
Qed.

Lemma keys_within_dec {V : Type} (d : gmap Z V) (n : Z) :
  Decision (keys_within d n).
Proof.
  destruct (decide (map_Forall (fun k _ => k ∈ RangeSet 1 n) d)) as [H|H].
  - left. intros k v Hkv. apply elem_of_RangeSet. exact (H k v Hkv).
  - right. intros Hk. apply H. intros k v Hkv. apply elem_of_RangeSet.
    by eapply Hk.
Qed.

(** The loop of lines 45-49 fails only with [ValueError], on a day without
    availability value. *)
Lemma fix_unavailable_returns (index : list Z) (av : gmap Z Z)
    (days : list Z) (acc : list (var * Q)) :
  (forall d, d ∈ days -> d ∈ index) ->
  (forall d, d ∈ days -> is_Some (av !! d)) ->
  exists fx, fix_unavailable (mkParam index av) days acc = inr fx.
Proof.
  revert acc; induction days as [|day rest IH]; intros acc Hidx Hcov; simpl.
  - eauto.
  - destruct (Hcov day) as [v Hv]; [set_solver|].
    assert (getitem (mkParam index av) day = inr v) as ->.
    { apply getitem_inr. split; [apply Hidx; set_solver|done]. }
    simpl. destruct (py_not v); apply IH; intros; try apply Hidx;
      try apply Hcov; set_solver.
Qed.

Lemma getitem_inl {V : Type} (p : ParamOf V) (k : Z) (e : PyError) :
  k ∈ index_set p -> getitem p k = inl e ->
  e = ValueError /\ data p !! k = None.
Proof.
  intros Hk. unfold getitem. rewrite decide_True by done.
  destruct (data p !! k); [discriminate|]. by intros [= <-].
Qed.

Lemma fix_unavailable_inl (index : list Z) (av : gmap Z Z)
    (days : list Z) (acc : list (var * Q)) (e : PyError) :
  (forall d, d ∈ days -> d ∈ index) ->
  fix_unavailable (mkParam index av) days acc = inl e ->
  e = ValueError /\ exists d, d ∈ days /\ av !! d = None.
Proof.
  revert acc; induction days as [|day rest IH]; intros acc Hidx; simpl;
    [discriminate|].
  destruct (getitem (mkParam index av) day) as [e'|v] eqn:Hget; simpl.
  - intros [= <-]. apply getitem_inl in Hget as [-> Hnone];
      [|apply Hidx; set_solver].
    split; [done|]. exists day. split; [set_solver|done].
  - destruct (py_not v); intros Hrun; apply IH in Hrun as (-> & d & ? & ?);
      try (intros; apply Hidx; set_solver);
      (split; [done|]); exists d; (split; [set_solver|done]).
Qed.

Lemma profit_terms_returns (capacity fixed_cost : Q) (days index : list Z)
    (prod price coeff : gmap Z Q) :
  (forall d, d ∈ days -> d ∈ index) ->
  (forall d, d ∈ days ->
     is_Some (prod !! d) /\ is_Some (price !! d) /\ is_Some (coeff !! d)) ->
  exists terms,
    profit_terms capacity fixed_cost (mkParam index prod) (mkParam index price)
      (mkParam index coeff) days = inr terms.
Proof.
  induction days as [|day rest IH]; intros Hidx Hcov; simpl; [eauto|].
  destruct (Hcov day) as ([p Hp] & [pr Hpr] & [c Hc]); [set_solver|].
  assert (day ∈ index) as Hday by (apply Hidx; set_solver).
  unfold profit_term.
  rewrite (proj2 (getitem_inr (mkParam index prod) day p)) by done.
  simpl.
  rewrite (proj2 (getitem_inr (mkParam index price) day pr)) by done.
  simpl.
  rewrite (proj2 (getitem_inr (mkParam index coeff) day c)) by done.
  simpl.
  destruct IH as [ts ->]; [intros; apply Hidx; set_solver
                          |intros; apply Hcov; set_solver|].
  simpl. eauto.
Qed.

Lemma profit_terms_inl (capacity fixed_cost : Q) (days index : list Z)
    (prod price coeff : gmap Z Q) (e : PyError) :
  (forall d, d ∈ days -> d ∈ index) ->
  profit_terms capacity fixed_cost (mkParam index prod) (mkParam index price)
    (mkParam index coeff) days = inl e ->
  e = ValueError /\
  exists d, d ∈ days /\
    (prod !! d = None \/ price !! d = None \/ coeff !! d = None).
Proof.
  induction days as [|day rest IH]; intros Hidx; simpl; [discriminate|].
  assert (day ∈ index) as Hday by (apply Hidx; set_solver).
  unfold profit_term.
  destruct (getitem (mkParam index prod) day) as [e1|p] eqn:H1; simpl.
  { intros [= <-]. apply getitem_inl in H1 as [-> ?]; [|done].
    split; [done|]. exists day. split; [set_solver|auto]. }
  destruct (getitem (mkParam index price) day) as [e2|pr] eqn:H2; simpl.
  { intros [= <-]. apply getitem_inl in H2 as [-> ?]; [|done].
    split; [done|]. exists day. split; [set_solver|auto]. }
  destruct (getitem (mkParam index coeff) day) as [e3|c] eqn:H3; simpl.
  { intros [= <-]. apply getitem_inl in H3 as [-> ?]; [|done].
    split; [done|]. exists day. split; [set_solver|auto]. }
  destruct (profit_terms capacity fixed_cost _ _ _ rest) as [e4|ts] eqn:H4;
    simpl; [|discriminate].
  intros [= <-]. destruct IH as (-> & d & ? & ?);
    [intros; apply Hidx; set_solver|done|].
  split; [done|]. exists d. split; [set_solver|done].
Qed.

Lemma keys_within_Forall {V : Type} (d : gmap Z V) (n : Z) :
  map_Forall (fun k _ => (1 <= k <= n)%Z) d -> keys_within d n.
Proof. intros H k v Hkv. exact (H k v Hkv). Qed.

Lemma covers_Forall {V : Type} (d : gmap Z V) (n : Z) :
  Forall (fun k => is_Some (d !! k)) (seqZ 1 n) -> covers d n.
Proof.
  rewrite Forall_forall. intros H k Hk. apply H, elem_of_seqZ. lia.
Qed.

Lemma build_model_returns_when (prod price coeff : gmap Z Q)
    (availability : gmap Z Z) (capacity fixed_cost : Q) :
  (exists m,
     build_model prod price coeff availability capacity fixed_cost = inr m)
  <-> keys_within prod (len prod) /\ keys_within price (len prod) /\
      keys_within coeff (len prod) /\ keys_within availability (len prod) /\
      covers price (len prod) /\ covers coeff (len prod) /\
      covers availability (len prod).
Proof.
  split.
  - intros [m Hrun]. unfold build_model in Hrun.
    apply bind_inr in Hrun as (p & Hp & Hrun).
    apply bind_inr in Hrun as (pr & Hpr & Hrun).
    apply bind_inr in Hrun as (c & Hc & Hrun).
    apply bind_inr in Hrun as (av & Hav & Hrun).
    apply bind_inr in Hrun as (fx & Hfx & Hrun).
    apply bind_inr in Hrun as (terms & Hterms & _).
    pose proof (Param_returns_keys_within _ _ _ Hp) as K1.
    pose proof (Param_returns_keys_within _ _ _ Hpr) as K2.
    pose proof (Param_returns_keys_within _ _ _ Hc) as K3.
    pose proof (Param_returns_keys_within _ _ _ Hav) as K4.
    apply Param_inr in Hp as [-> _], Hpr as [-> _], Hc as [-> _], Hav as [-> _].
    do 4 (split; [done|]).
    pose proof (profit_terms_defined _ _ _ _ _ _ _ _ Hterms) as Hdef.
    apply fix_unavailable_spec in Hfx as (_ & Hdays & _).
    split; [|split]; intros k Hk; apply elem_of_RangeSet in Hk.
    + by destruct (Hdef k Hk) as (_ & ? & _).
    + by destruct (Hdef k Hk) as (_ & _ & ?).
    + destruct (Hdays k Hk) as (v & Hget & _).
      apply getitem_inr in Hget as [_ Hget]. simpl in Hget. eauto.
  - intros (K1 & K2 & K3 & K4 & C2 & C3 & C4). unfold build_model.
    rewrite !Param_keys_within by done. simpl.
    destruct (fix_unavailable_returns (RangeSet 1 (len prod)) availability
                (RangeSet 1 (len prod)) []) as [fx ->]; [done| |].
    { intros d Hd. apply C4. by apply elem_of_RangeSet. }
    simpl.
    destruct (profit_terms_returns capacity fixed_cost (RangeSet 1 (len prod))
                (RangeSet 1 (len prod)) prod price coeff) as [ts ->]; [done| |].
    { intros d Hd. apply elem_of_RangeSet in Hd.
      split; [by apply keys_fill_range; [intros ???; apply elem_of_RangeSet; eauto|]|].
      split; [by apply C2|by apply C3]. }
    simpl. eauto.
Qed.

(** X1. [build_model] returns a model exactly when every key of the four
    dicts is a day of [1..len(prod)] and the price, coefficient and
    availability dicts hold a value for each of these days; otherwise it
    raises. *)
Theorem build_model_returns_iff (prod price coeff : gmap Z Q)
    (availability : gmap Z Z) (capacity fixed_cost : Q) :
  (exists m,
     build_model prod price coeff availability capacity fixed_cost = inr m)
  <-> keys_within prod (len prod) /\ keys_within price (len prod) /\
      keys_within coeff (len prod) /\ keys_within availability (len prod) /\
      covers price (len prod) /\ covers coeff (len prod) /\
      covers availability (len prod).
Proof. apply build_model_returns_when. Qed.

Lemma build_model_returns_iff_witness :
  exists m,
    build_model (uniform 10 1) (uniform 10 10) (uniform 10 1)
      (blackout_availability 4 10 10) 20 500 = inr m.
Proof.
  apply build_model_returns_iff.
  do 4 (split; [apply keys_within_Forall, (bool_decide_unpack _);
                vm_compute; reflexivity|]).
  split; [|split]; apply covers_Forall, (bool_decide_unpack _);
    vm_compute; reflexivity.
Defined.

(** X2. When one of the four dicts has a key that is no day of
    [1..len(prod)] (a day 0, a gap in the production days, a longer price
    series), [build_model] raises the [KeyError] of the [Param] that meets
    the key outside its index set. *)
Theorem build_model_key_outside_horizon (prod price coeff : gmap Z Q)
    (availability : gmap Z Z) (capacity fixed_cost : Q) :
  ~ (keys_within prod (len prod) /\ keys_within price (len prod) /\
     keys_within coeff (len prod) /\ keys_within availability (len prod)) ->
  build_model prod price coeff availability capacity fixed_cost
  = inl KeyError.
Proof.
  intros Hnot. unfold build_model.
  destruct (keys_within_dec prod (len prod)) as [K1|K1];
    [rewrite (Param_keys_within _ _ K1)|by rewrite (Param_key_outside _ _ K1)].
  destruct (keys_within_dec price (len prod)) as [K2|K2];
    [rewrite (Param_keys_within _ _ K2)|by rewrite (Param_key_outside _ _ K2)].
  destruct (keys_within_dec coeff (len prod)) as [K3|K3];
    [rewrite (Param_keys_within _ _ K3)|by rewrite (Param_key_outside _ _ K3)].
  destruct (keys_within_dec availability (len prod)) as [K4|K4];
    [by destruct Hnot|by rewrite (Param_key_outside _ _ K4)].
Qed.

Lemma build_model_key_outside_horizon_witness :
  ~ keys_within (delete 5%Z (uniform 10 1%Q)) (len (delete 5%Z (uniform 10 1%Q)))
  /\ build_model (delete 5%Z (uniform 10 1)) (uniform 10 10) (uniform 10 1)
       (full_availability 10) 20 500 = inl KeyError.
Proof.
  assert (~ keys_within (delete 5%Z (uniform 10 1%Q))
            (len (delete 5%Z (uniform 10 1%Q)))) as Hout.
  { intros H. specialize (H 10%Z 1 eq_refl). vm_compute in H.
    destruct H as [_ H]. by apply H. }
  split; [exact Hout|].
  apply build_model_key_outside_horizon. intros (H & _). by apply Hout.
Defined.

(** X3. When all keys are days of [1..len(prod)] and the price, the
    coefficient or the availability dict lacks one of these days,
    [build_model] raises [ValueError]. *)
Theorem build_model_missing_day (prod price coeff : gmap Z Q)
    (availability : gmap Z Z) (capacity fixed_cost : Q) :
  keys_within prod (len prod) -> keys_within price (len prod) ->
  keys_within coeff (len prod) -> keys_within availability (len prod) ->
  ~ (covers price (len prod) /\ covers coeff (len prod) /\
     covers availability (len prod)) ->
  build_model prod price coeff availability capacity fixed_cost
  = inl ValueError.
Proof.
  intros K1 K2 K3 K4 Hnot.
  destruct (build_model prod price coeff availability capacity fixed_cost)
    as [e|m] eqn:Hrun.
  - f_equal. unfold build_model in Hrun.
    rewrite !Param_keys_within in Hrun by done. simpl in Hrun.
    destruct (fix_unavailable _ _ _) as [e1|fx] eqn:Hfx; simpl in Hrun.
    { injection Hrun as <-. by apply fix_unavailable_inl in Hfx as [-> _]. }
    destruct (profit_terms _ _ _ _ _ _) as [e2|ts] eqn:Hts; simpl in Hrun;
      [|discriminate].
    injection Hrun as <-. by apply profit_terms_inl in Hts as [-> _].
  - destruct Hnot.
    assert (exists m, build_model prod price coeff availability capacity
                        fixed_cost = inr m) as Hex by eauto.
    apply build_model_returns_when in Hex. tauto.
Qed.

Lemma build_model_missing_day_witness :
  ~ covers (delete 5%Z (uniform 10 10%Q)) (len (uniform 10 1%Q))
  /\ build_model (uniform 10 1) (delete 5%Z (uniform 10 10)) (uniform 10 1)
       (full_availability 10) 20 500 = inl ValueError.
Proof.
  assert (~ covers (delete 5%Z (uniform 10 10%Q)) (len (uniform 10 1%Q)))
    as Hout.
  { intros H. destruct (H 5%Z) as [v Hv]; [vm_compute; split; discriminate|].
    vm_compute in Hv. discriminate. }
  split; [exact Hout|].
  apply build_model_missing_day;
    try (apply keys_within_Forall, (bool_decide_unpack _); vm_compute;
         reflexivity).
  intros (H & _). by apply Hout.
Defined.

(** ** The fixed variables *)

Lemma fixed_characterised (prod price coeff : gmap Z Q)
    (availability : gmap Z Z) (capacity fixed_cost : Q) (m : Model)
    (v : var) (q : Q) :
  build_model prod price coeff availability capacity fixed_cost = inr m ->
  (v, q) ∈ fixed m
  <-> q = 0 /\
      exists d, d ∈ T m /\ unavailable availability d /\
        (v = Start5 d \/ v = Start3 d \/ v = Start2 d).
Proof.
  intros Hb. pose proof Hb as Hb'.
  apply build_model_inr in Hb' as (HT & _ & _ & Hfix & _).
  apply fix_unavailable_spec in Hfix as (_ & _ & Hfx). split.
  - intros Hin. destruct (Hfx _ Hin) as [?|(d & w & Hd & Hget & Hnot & Hmem)];
      [set_solver|].
    apply getitem_inr in Hget as [_ Hget]. simpl in Hget.
    assert (q = 0 /\ (v = Start5 d \/ v = Start3 d \/ v = Start2 d)) as [-> Hv].
    { rewrite !elem_of_cons in Hmem.
      destruct Hmem as [[= -> ->]|[[= -> ->]|[[= -> ->]|Hmem]]];
        [auto..|set_solver]. }
    split; [done|]. exists d. rewrite HT. split; [done|].
    split; [by exists w|done].
  - intros (-> & d & Hd & Hun & Hv).
    destruct (unavailable_starts_in_fixed _ _ _ _ _ _ _ _ Hb Hd Hun)
      as (I5 & I3 & I2).
    destruct Hv as [->|[->| ->]]; done.
Qed.



(** ** Declared variables *)

Lemma elem_of_variables (m : Model) (v : var) :
  v ∈ variables m
  <-> v = Split \/
      exists d, d ∈ T m /\
        (v = Maintenance d \/ v = Start5 d \/ v = Start3 d \/ v = Start2 d).
Proof.
  unfold variables.
  rewrite elem_of_cons, !elem_of_app, !list_elem_of_fmap. split.
  - intros [->|[(d & -> & ?)|[(d & -> & ?)|[(d & -> & ?)|(d & -> & ?)]]]];
      [by left|right; exists d; auto..].
  - intros [->|(d & Hd & [->|[->|[->| ->]]])]; [by left|right..]; eauto 10.
Qed.

Lemma elem_of_vars_of_fold_left_Add (es : list expr) (acc : expr) (v : var) :
  v ∈ vars_of (fold_left Add es acc)
  <-> v ∈ vars_of acc \/ exists e, e ∈ es /\ v ∈ vars_of e.
Proof.
  revert acc; induction es as [|e es IH]; intros acc; simpl.
  - split; [by left|]. intros [?|(e & ? & _)]; [done|set_solver].
  - rewrite IH. simpl. rewrite elem_of_app. split.
    + intros [[?|?]|(e' & ? & ?)]; [by left|right; exists e; set_solver|].
      right; exists e'; set_solver.
    + intros [?|(e' & He' & ?)]; [by left; left|].
      rewrite elem_of_cons in He'. destruct He' as [->|?]; [by left; right|].
      right; eauto.
Qed.

Lemma elem_of_vars_of_py_sum_vars (x : Z -> var) (days : list Z) (v : var) :
  v ∈ vars_of (py_sum (V ∘ x <$> days)) <-> exists d, d ∈ days /\ v = x d.
Proof.
  unfold py_sum. rewrite elem_of_vars_of_fold_left_Add. simpl. split.
  - intros [?|(e & He & Hv)]; [set_solver|].
    apply list_elem_of_fmap in He as (d & -> & Hd). simpl in Hv.
    apply list_elem_of_singleton in Hv. eauto.
  - intros (d & Hd & ->). right. exists (V (x d)). split.
    + apply list_elem_of_fmap. by exists d.
    + simpl. set_solver.
Qed.

Lemma profit_terms_vars (capacity fixed_cost : Q) (days : list Z)
    (production prices coeff : ParamOf Q) (terms : list expr) :
  profit_terms capacity fixed_cost production prices coeff days = inr terms ->
  forall e v, e ∈ terms -> v ∈ vars_of e ->
    exists d, d ∈ days /\ v = Maintenance d.
Proof.
  revert terms; induction days as [|day rest IH]; intros terms; simpl.
  - intros [= <-] e v He. set_solver.
  - intros Hrun. apply bind_inr in Hrun as (t & Ht & Hrun).
    apply bind_inr in Hrun as (ts & Hts & [= <-]).
    unfold profit_term in Ht.
    apply bind_inr in Ht as (p & _ & Ht).
    apply bind_inr in Ht as (pr & _ & Ht).
    apply bind_inr in Ht as (c & _ & [= <-]).
    intros e v He Hv. rewrite elem_of_cons in He. destruct He as [->|He].
    + exists day. split; [set_solver|]. simpl in Hv. set_solver.
    + destruct (IH ts Hts e v He Hv) as (d & ? & ->).
      exists d. split; [set_solver|done].
Qed.

(** X5. Every variable that a constraint, the objective or a fixing of a
    built model mentions is declared: the clipped ranges of the linking rule
    never reach a start variable outside the days of the horizon. *)
Theorem model_mentions_declared_variables (prod price coeff : gmap Z Q)
    (availability : gmap Z Z) (capacity fixed_cost : Q) (m : Model) :
  build_model prod price coeff availability capacity fixed_cost = inr m ->
  (forall c v, c ∈ constraints m ->
     v ∈ vars_of (lhs c) ++ vars_of (rhs c) -> v ∈ variables m) /\
  (forall v, v ∈ vars_of (profit m) -> v ∈ variables m) /\
  (forall v q, (v, q) ∈ fixed m -> v ∈ variables m).
Proof.
  intros Hb. pose proof Hb as Hb'.
  apply build_model_inr in Hb'
    as (HT & _ & _ & _ & E5 & E3 & E2 & El & (terms & Hterms & Hprofit) & _).
  split; [|split].
  - intros c v Hc Hv. unfold constraints in Hc.
    rewrite E5, E3, E2, El, !elem_of_cons in Hc.
    apply elem_of_variables. rewrite HT.
    destruct Hc as [->|[->|[->|Hc]]]; simpl in Hv; rewrite elem_of_app in Hv.
    + destruct Hv as [Hv|Hv].
      * apply elem_of_vars_of_py_sum_vars in Hv as (d & ? & ->). right; eauto 10.
      * left. set_solver.
    + destruct Hv as [Hv|Hv].
      * apply elem_of_vars_of_py_sum_vars in Hv as (d & ? & ->). right; eauto 10.
      * left. set_solver.
    + destruct Hv as [Hv|Hv].
      * apply elem_of_vars_of_py_sum_vars in Hv as (d & ? & ->). right; eauto 10.
      * left. set_solver.
    + apply list_elem_of_fmap in Hc as ([d c'] & -> & Hc).
      apply list_elem_of_fmap in Hc as (d' & [= -> ->] & Hd).
      apply elem_of_RangeSet in Hd. simpl in Hv.
      rewrite !elem_of_app, !elem_of_vars_of_py_sum_vars in Hv. right.
      destruct Hv as [Hv|[[(k & Hk & ->)|(k & Hk & ->)]|(k & Hk & ->)]].
      * exists d'. split; [by apply elem_of_RangeSet|set_solver].
      * exists k. apply elem_of_seqZ in Hk.
        split; [apply elem_of_RangeSet; lia|auto].
      * exists k. apply elem_of_seqZ in Hk.
        split; [apply elem_of_RangeSet; lia|auto].
      * exists k. apply elem_of_seqZ in Hk.
        split; [apply elem_of_RangeSet; lia|auto].
  - intros v Hv. rewrite Hprofit in Hv. unfold py_sum in Hv.
    apply elem_of_vars_of_fold_left_Add in Hv as [Hv|(e & He & Hv)];
      [simpl in Hv; set_solver|].
    destruct (profit_terms_vars _ _ _ _ _ _ _ Hterms e v He Hv) as (d & ? & ->).
    apply elem_of_variables. rewrite HT. right; eauto 10.
  - intros v q Hin.
    apply (fixed_characterised _ _ _ _ _ _ _ _ _ Hb) in Hin
      as (_ & d & Hd & _ & Hv).
    apply elem_of_variables. right. exists d. split; [done|tauto].
Qed.

Lemma model_mentions_declared_variables_witness :
  exists m,
    build_model (uniform 10 1) (uniform 10 10) (uniform 10 1)
      (blackout_availability 4 10 10) 20 500 = inr m /\
    forall v, v ∈ vars_of (profit m) -> v ∈ variables m.
Proof.
  eexists. split; [vm_compute; reflexivity|].
  apply (model_mentions_declared_variables (uniform 10 1) (uniform 10 10)
           (uniform 10 1) (blackout_availability 4 10 10) 20 500).
  vm_compute; reflexivity.
Defined.

(** ** Existence of feasible assignments *)

Lemma one_window_binary (s n : Z) (v : var) : is_binary (one_window s n v).
Proof.
  unfold one_window. destruct v; repeat case_match;
    first [by left|by right].
Qed.

Lemma one_window_start5 (s n d : Z) :
  d <> s -> one_window s n (Start5 d) == 0.
Proof. intros Hne. simpl. by rewrite (proj2 (Z.eqb_neq d s)). Qed.

(** A 5-day window started on an available day of the horizon is a
    feasible assignment. *)
Lemma one_window_feasible (prod price coeff : gmap Z Q)
    (availability : gmap Z Z) (capacity fixed_cost : Q) (m : Model) (s : Z) :
  build_model prod price coeff availability capacity fixed_cost = inr m ->
  s ∈ T m -> ~ unavailable availability s ->
  feasible m (one_window s (len prod)).
Proof.
  intros Hb Hs Hav. pose proof Hb as Hb'.
  apply build_model_inr in Hb'
    as (HT & _ & _ & _ & E5 & E3 & E2 & El & _).
  rewrite HT in Hs. apply elem_of_RangeSet in Hs.
  set (n := len prod) in *.
  assert (forall d, (1 <= d <= n)%Z -> d <> s ->
            one_window s n (Start5 d) == 0) as Hrest
    by (intros; by apply one_window_start5).
  repeat split.
  - apply Forall_forall. intros v _. apply one_window_binary.
  - apply Forall_forall. intros [v q] Hin.
    apply (fixed_characterised _ _ _ _ _ _ _ _ _ Hb) in Hin
      as (-> & d & Hd & Hun & Hv). simpl.
    destruct Hv as [->|[->| ->]]; [|reflexivity..].
    apply one_window_start5. by intros ->.
  - rewrite E5. unfold holds. simpl. rewrite eval_py_sum_vars.
    etransitivity; [apply (sumQ_single _ s); [apply NoDup_RangeSet|]|].
    + intros d Hd ?. apply elem_of_RangeSet in Hd. by apply Hrest.
    + rewrite decide_True by (by apply elem_of_RangeSet).
      simpl. rewrite Z.eqb_refl. reflexivity.
  - rewrite E3. unfold holds. simpl. rewrite eval_py_sum_vars.
    apply sumQ_zero. reflexivity.
  - rewrite E2. unfold holds. simpl. rewrite eval_py_sum_vars.
    apply sumQ_zero. reflexivity.
  - rewrite El. apply Forall_forall. intros [d c] Hin.
    apply list_elem_of_fmap in Hin as (d' & [= -> ->] & Hd).
    apply elem_of_RangeSet in Hd. simpl.
    apply link_maintenance_rule_holds. unfold covering_starts.
    rewrite (interval_sum_indicator _ n s) by (done || lia).
    rewrite !(interval_sum_zero _ n) by (reflexivity || lia).
    simpl. rewrite Z.eqb_refl.
    case_decide;
      destruct (Z.leb_spec s d'); destruct (Z.leb_spec d' (s + 4));
      destruct (Z.leb_spec d' n); simpl; try lia; reflexivity.
Qed.

(** X6. A built model has a feasible assignment exactly when some day of
    its horizon is available; with every day unavailable, or an empty
    horizon, it is infeasible. *)
Theorem feasible_iff_available_day (prod price coeff : gmap Z Q)
    (availability : gmap Z Z) (capacity fixed_cost : Q) (m : Model) :
  build_model prod price coeff availability capacity fixed_cost = inr m ->
  (exists a, feasible m a)
  <-> exists d, d ∈ T m /\ ~ unavailable availability d.
Proof.
  intros Hb. split.
  - intros [a Hf].
    destruct (feasible_binary _ _ _ _ _ _ _ _ Hb Hf) as [Hsplit Hbin].
    destruct (feasible_counts _ _ _ _ _ _ _ _ Hb Hf) as (H5 & H3 & _).
    pose proof Hb as Hb'. apply build_model_inr in Hb' as (HT & _).
    destruct Hsplit as [Hs|Hs]; rewrite Hs in H5, H3.
    + destruct (one_start (fun d => a (Start5 d)) (len prod))
        as (s & Hin & Hone & _); [intros d Hd; by apply Hbin|by rewrite H5|].
      assert (s ∈ T m) as HsT by (rewrite HT; by apply elem_of_RangeSet).
      exists s. split; [done|]. intros Hun.
      destruct (unavailable_starts_zero _ _ _ _ _ _ _ _ _ Hb Hf HsT Hun)
        as (Hz & _). rewrite Hz in Hone. lra.
    + destruct (one_start (fun d => a (Start3 d)) (len prod))
        as (s & Hin & Hone & _); [intros d Hd; by apply Hbin|done|].
      assert (s ∈ T m) as HsT by (rewrite HT; by apply elem_of_RangeSet).
      exists s. split; [done|]. intros Hun.
      destruct (unavailable_starts_zero _ _ _ _ _ _ _ _ _ Hb Hf HsT Hun)
        as (_ & Hz & _). rewrite Hz in Hone. lra.
  - intros (d & Hd & Hav). exists (one_window d (len prod)).
    by eapply one_window_feasible.
Qed.

Lemma feasible_iff_available_day_witness :
  exists m,
    build_model (uniform 10 1) (uniform 10 10) (uniform 10 1)
      (blackout_availability 1 10 10) 20 500 = inr m /\
    ~ exists a, feasible m a.
Proof.
  eexists. split; [vm_compute; reflexivity|].
  intros Hex.
  apply (feasible_iff_available_day (uniform 10 1) (uniform 10 10)
           (uniform 10 1) (blackout_availability 1 10 10) 20 500) in Hex;
    [|vm_compute; reflexivity].
  destruct Hex as (d & Hd & Hav). apply Hav.
  apply list_elem_of_In in Hd. simpl in Hd. exists 0%Z.
  intuition subst; split; vm_compute; reflexivity.
Defined.

(** ** The availability dicts of the script *)

Lemma lookup_comprehension {V : Type} (f : Z -> V) (l : list Z) (k : Z) :
  (list_to_map ((fun d => (d, f d)) <$> l) : gmap Z V) !! k
  = if decide (k ∈ l) then Some (f k) else None.
Proof.
  induction l as [|x l IH].
  - change (list_to_map ((fun d => (d, f d)) <$> [])) with (∅ : gmap Z V).
    rewrite lookup_empty. case_decide; [set_solver|done].
  - change (list_to_map ((fun d => (d, f d)) <$> x :: l))
      with (<[x := f x]> (list_to_map ((fun d => (d, f d)) <$> l) : gmap Z V)).
    destruct (decide (x = k)) as [->|Hne].
    + rewrite lookup_insert_eq. by rewrite decide_True by set_solver.
    + rewrite lookup_insert_ne by done. rewrite IH.
      destruct (decide (k ∈ l)).
      * by rewrite decide_True by set_solver.
      * by rewrite decide_False by set_solver.
Qed.

Lemma full_availability_available (horizon d : Z) :
  ~ unavailable (full_availability horizon) d.
Proof.
  intros (v & Hv & Hnot). unfold full_availability in Hv.
  rewrite lookup_comprehension in Hv. case_decide; [|done].
  injection Hv as <-. discriminate.
Qed.

Lemma blackout_availability_unavailable (lo hi horizon d : Z) :
  unavailable (blackout_availability lo hi horizon) d
  <-> (1 <= d <= horizon)%Z /\ (lo <= d <= hi)%Z.
Proof.
  unfold unavailable, blackout_availability.
  rewrite lookup_comprehension. unfold range. split.
  - intros (v & Hv & Hnot). case_decide as Hd; [|done].
    apply elem_of_seqZ in Hd. injection Hv as <-.
    destruct (Z.leb_spec lo d); destruct (Z.leb_spec d hi); simpl in Hnot;
      try discriminate. lia.
  - intros [Hd Hw]. exists 0%Z. split; [|done].
    rewrite decide_True by (apply elem_of_seqZ; lia).
    rewrite (proj2 (Z.leb_le lo d)), (proj2 (Z.leb_le d hi)) by lia. done.
Qed.

(** ** Restricting the availability *)

Lemma restricted_availability_feasible (prod price coeff : gmap Z Q)
    (availability1 availability2 : gmap Z Z) (capacity fixed_cost : Q)
    (m1 m2 : Model) :
  build_model prod price coeff availability1 capacity fixed_cost = inr m1 ->
  build_model prod price coeff availability2 capacity fixed_cost = inr m2 ->
  (forall d, unavailable availability1 d -> unavailable availability2 d) ->
  T m1 = T m2 /\ profit m1 = profit m2 /\
  forall a, feasible m2 a -> feasible m1 a.
Proof.
  intros Hb1 Hb2 Hsub.
  pose proof Hb1 as Hb1'. pose proof Hb2 as Hb2'.
  apply build_model_inr in Hb1'
    as (HT1 & _ & _ & _ & E51 & E31 & E21 & El1 & (ts1 & Ht1 & Hp1) & _).
  apply build_model_inr in Hb2'
    as (HT2 & _ & _ & _ & E52 & E32 & E22 & El2 & (ts2 & Ht2 & Hp2) & _).
  assert (T m1 = T m2) as HT by congruence.
  split; [done|]. split; [congruence|].
  intros a (Hdom & Hfx & H5 & H3 & H2 & Hl).
  unfold feasible, variables. rewrite HT, E51, E31, E21, El1.
  rewrite E52 in H5. rewrite E32 in H3. rewrite E22 in H2. rewrite El2 in Hl.
  repeat split; try done.
  apply Forall_forall. intros [v q] Hin. rewrite Forall_forall in Hfx.
  apply (Hfx (v, q)).
  apply (fixed_characterised _ _ _ _ _ _ _ _ _ Hb1) in Hin
    as (-> & d & Hd & Hun & Hv).
  apply (fixed_characterised _ _ _ _ _ _ _ _ _ Hb2).
  split; [done|]. exists d. rewrite <- HT. auto.
Qed.

(** X7. Two models built from the same forecasts, the second with at
    least the unavailable days of the first, have the same days and the same
    objective, and every feasible assignment of the second is feasible for
    the first: restricting the availability only removes solutions. *)
Theorem less_availability_fewer_solutions (prod price coeff : gmap Z Q)
    (availability1 availability2 : gmap Z Z) (capacity fixed_cost : Q)
    (m1 m2 : Model) :
  build_model prod price coeff availability1 capacity fixed_cost = inr m1 ->
  build_model prod price coeff availability2 capacity fixed_cost = inr m2 ->
  (forall d, unavailable availability1 d -> unavailable availability2 d) ->
  T m1 = T m2 /\ profit m1 = profit m2 /\
  forall a, feasible m2 a -> feasible m1 a.
Proof. apply restricted_availability_feasible. Qed.

Lemma less_availability_fewer_solutions_witness :
  exists m1 m2,
    build_model (uniform 10 1) (uniform 10 10) (uniform 10 1)
      (full_availability 10) 20 500 = inr m1 /\
    build_model (uniform 10 1) (uniform 10 10) (uniform 10 1)
      (blackout_availability 4 10 10) 20 500 = inr m2 /\
    (forall d, unavailable (full_availability 10) d ->
               unavailable (blackout_availability 4 10 10) d) /\
    forall a, feasible m2 a -> feasible m1 a.
Proof.
  assert (forall d, unavailable (full_availability 10) d ->
                    unavailable (blackout_availability 4 10 10) d) as Hsub
    by (intros d Hd; by apply full_availability_available in Hd).
  do 2 eexists. split; [vm_compute; reflexivity|].
  split; [vm_compute; reflexivity|]. split; [exact Hsub|].
  apply (less_availability_fewer_solutions (uniform 10 1) (uniform 10 10)
           (uniform 10 1) (full_availability 10)
           (blackout_availability 4 10 10) 20 500);
    [vm_compute; reflexivity|vm_compute; reflexivity|exact Hsub].
Defined.

(** ** The objective in terms of the maintenance days *)





(** ** Errors of [print_solution] *)

Lemma value_returns_iff (vals : valuation) (v : var) :
  (exists q, value vals v = inr q) <-> is_Some (vals v).
Proof.
  unfold value. destruct (vals v) as [q|]; split.
  - eauto.
  - intros _. eauto.
  - intros [q [=]].
  - intros [q [=]].
Qed.

Lemma value_inl (vals : valuation) (v : var) (e : PyError) :
  value vals v = inl e -> e = ValueError.
Proof. unfold value. destruct (vals v); [discriminate|]. by intros [= <-]. Qed.

Lemma value_expr_inl (vals : valuation) (x : expr) (e : PyError) :
  value_expr vals x = inl e -> e = ValueError.
Proof.
  induction x as [q|v|x IHx y IHy|x IHx y IHy|x IHx y IHy]; simpl;
    [discriminate|apply value_inl|..];
    (destruct (value_expr vals x); simpl; [intros [= <-]; by apply IHx|]);
    (destruct (value_expr vals y); simpl; [intros [= <-]; by apply IHy|]);
    discriminate.
Qed.

(** An expression has a value exactly when each of its variables has. *)
Lemma value_expr_returns_iff (vals : valuation) (x : expr) :
  (exists q, value_expr vals x = inr q)
  <-> forall v, v ∈ vars_of x -> is_Some (vals v).
Proof.
  induction x as [q|v|x IHx y IHy|x IHx y IHy|x IHx y IHy]; simpl.
  - split; [intros _ v Hv; set_solver|eauto].
  - rewrite value_returns_iff. split.
    + intros Hs w Hw. apply list_elem_of_singleton in Hw. by subst.
    + intros H. apply H. set_solver.
  - split.
    + intros [q Hq]. apply bind_inr in Hq as (p & Hp & Hq).
      apply bind_inr in Hq as (r & Hr & _).
      intros v Hv. apply elem_of_app in Hv as [Hv|Hv];
        [apply IHx; eauto|apply IHy; eauto].
    + intros H.
      destruct (proj2 IHx) as [p ->]; [intros; apply H; set_solver|].
      destruct (proj2 IHy) as [r ->]; [intros; apply H; set_solver|].
      simpl. eauto.
  - split.
    + intros [q Hq]. apply bind_inr in Hq as (p & Hp & Hq).
      apply bind_inr in Hq as (r & Hr & _).
      intros v Hv. apply elem_of_app in Hv as [Hv|Hv];
        [apply IHx; eauto|apply IHy; eauto].
    + intros H.
      destruct (proj2 IHx) as [p ->]; [intros; apply H; set_solver|].
      destruct (proj2 IHy) as [r ->]; [intros; apply H; set_solver|].
      simpl. eauto.
  - split.
    + intros [q Hq]. apply bind_inr in Hq as (p & Hp & Hq).
      apply bind_inr in Hq as (r & Hr & _).
      intros v Hv. apply elem_of_app in Hv as [Hv|Hv];
        [apply IHx; eauto|apply IHy; eauto].
    + intros H.
      destruct (proj2 IHx) as [p ->]; [intros; apply H; set_solver|].
      destruct (proj2 IHy) as [r ->]; [intros; apply H; set_solver|].
      simpl. eauto.
Qed.

Lemma report_start5_inl (vals : valuation) (days : list Z) (e : PyError) :
  report_start5 vals days = inl e -> e = ValueError.
Proof.
  induction days as [|d days IH]; simpl; [discriminate|].
  destruct (value vals (Start5 d)) eqn:Hv; simpl;
    [intros [= <-]; by eapply value_inl|].
  destruct (report_start5 vals days); simpl; [intros [= <-]; by apply IH|].
  discriminate.
Qed.

Lemma report_start3_start2_inl (vals : valuation) (days : list Z)
    (e : PyError) :
  report_start3_start2 vals days = inl e -> e = ValueError.
Proof.
  induction days as [|d days IH]; simpl; [discriminate|].
  destruct (value vals (Start3 d)) eqn:H3; simpl;
    [intros [= <-]; by eapply value_inl|].
  destruct (value vals (Start2 d)) eqn:H2; simpl;
    [intros [= <-]; by eapply value_inl|].
  destruct (report_start3_start2 vals days); simpl;
    [intros [= <-]; by apply IH|].
  discriminate.
Qed.

Lemma report_start5_returns_iff (vals : valuation) (days : list Z) :
  (exists out, report_start5 vals days = inr out)
  <-> forall d, d ∈ days -> is_Some (vals (Start5 d)).
Proof.
  induction days as [|d days IH]; simpl.
  - split; [intros _ d Hd; set_solver|eauto].
  - split.
    + intros [out Hout]. apply bind_inr in Hout as (x & Hx & Hout).
      apply bind_inr in Hout as (rest & Hrest & _).
      intros k Hk. rewrite elem_of_cons in Hk. destruct Hk as [->|Hk].
      * apply value_returns_iff. eauto.
      * apply IH; eauto.
    + intros H.
      destruct (proj2 (value_returns_iff vals (Start5 d))) as [x ->];
        [apply H; set_solver|].
      destruct (proj2 IH) as [rest ->]; [intros; apply H; set_solver|].
      simpl. eauto.
Qed.

Lemma report_start3_start2_returns_iff (vals : valuation) (days : list Z) :
  (exists out, report_start3_start2 vals days = inr out)
  <-> forall d, d ∈ days ->
        is_Some (vals (Start3 d)) /\ is_Some (vals (Start2 d)).
Proof.
  induction days as [|d days IH]; simpl.
  - split; [intros _ d Hd; set_solver|eauto].
  - split.
    + intros [out Hout]. apply bind_inr in Hout as (x3 & Hx3 & Hout).
      apply bind_inr in Hout as (x2 & Hx2 & Hout).
      apply bind_inr in Hout as (rest & Hrest & _).
      intros k Hk. rewrite elem_of_cons in Hk. destruct Hk as [->|Hk].
      * split; apply value_returns_iff; eauto.
      * apply IH; eauto.
    + intros H.
      destruct (H d) as [S3 S2]; [set_solver|].
      destruct (proj2 (value_returns_iff vals (Start3 d)) S3) as [x3 ->].
      simpl.
      destruct (proj2 (value_returns_iff vals (Start2 d)) S2) as [x2 ->].
      simpl.
      destruct (proj2 IH) as [rest ->]; [intros; apply H; set_solver|].
      simpl. eauto.
Qed.

(** X10. [print_solution] raises nothing but [ValueError], and only on an
    answer with status [ok] and termination condition [optimal]. *)
Theorem print_solution_raises_only_ValueError (model : Model)
    (vals : valuation) (results : Results) (e : PyError) :
  print_solution model vals results = inl e ->
  e = ValueError /\ status results = ss_ok /\
  termination_condition results = tc_optimal.
Proof.
  unfold print_solution.
  destruct (bool_decide (status results = ss_ok)) eqn:Hs; simpl;
    [|discriminate].
  destruct (bool_decide (termination_condition results = tc_optimal)) eqn:Ht;
    simpl; [|discriminate].
  apply bool_decide_eq_true in Hs, Ht. intros Hrun.
  split; [|done].
  destruct (value vals Split) as [e0|s] eqn:Hv; simpl in Hrun;
    [injection Hrun as <-; by eapply value_inl|].
  destruct (py_eq s 0).
  - destruct (report_start5 vals (T model)) as [e1|st] eqn:Hst; simpl in Hrun;
      [injection Hrun as <-; by eapply report_start5_inl|].
    destruct (value_expr vals (profit model)) as [e2|p] eqn:Hp; simpl in Hrun;
      [injection Hrun as <-; by eapply value_expr_inl|discriminate].
  - destruct (report_start3_start2 vals (T model)) as [e1|st] eqn:Hst;
      simpl in Hrun;
      [injection Hrun as <-; by eapply report_start3_start2_inl|].
    destruct (value_expr vals (profit model)) as [e2|p] eqn:Hp; simpl in Hrun;
      [injection Hrun as <-; by eapply value_expr_inl|discriminate].
Qed.

(** X9. On an optimal answer [print_solution] returns normally exactly
    when [Split] holds a value, the start variables of the branch chosen by
    that value hold a value on every day of the model (those of the other
    branch are not read), and every variable of the objective holds a
    value. *)
Theorem print_solution_returns_iff (model : Model) (vals : valuation)
    (results : Results) :
  status results = ss_ok -> termination_condition results = tc_optimal ->
  (exists out, print_solution model vals results = inr out)
  <-> exists s, vals Split = Some s /\
        (if py_eq s 0
         then forall d, d ∈ T model -> is_Some (vals (Start5 d))
         else forall d, d ∈ T model ->
                is_Some (vals (Start3 d)) /\ is_Some (vals (Start2 d))) /\
        forall v, v ∈ vars_of (profit model) -> is_Some (vals v).
Proof.
  intros Hs Ht. unfold print_solution. rewrite Hs, Ht. simpl. split.
  - intros [out Hout]. apply bind_inr in Hout as (s & Hsplit & Hout).
    apply bind_inr in Hout as (body & Hbody & Hout).
    apply bind_inr in Hout as (p & Hp & _).
    unfold value in Hsplit. destruct (vals Split) as [s'|] eqn:E; [|done].
    injection Hsplit as ->. exists s. split; [done|].
    split; [|apply value_expr_returns_iff; eauto].
    destruct (py_eq s 0); apply bind_inr in Hbody as (st & Hst & _).
    + apply report_start5_returns_iff. eauto.
    + apply report_start3_start2_returns_iff. eauto.
  - intros (s & Hsplit & Hstarts & Hvars).
    unfold value at 1. rewrite Hsplit. simpl.
    apply value_expr_returns_iff in Hvars as [p Hp].
    destruct (py_eq s 0).
    + apply report_start5_returns_iff in Hstarts as [st ->]. simpl.
      rewrite Hp. simpl. eauto.
    + apply report_start3_start2_returns_iff in Hstarts as [st ->]. simpl.
      rewrite Hp. simpl. eauto.
Qed.

Lemma print_solution_raises_only_ValueError_witness :
  exists m,
    build_model (uniform 10 1) (uniform 10 10) (uniform 10 1)
      (full_availability 10) 20 500 = inr m /\
    print_solution m (fun _ => None) (mkResults ss_ok tc_optimal)
      = inl ValueError /\
    (ValueError = ValueError /\
     status (mkResults ss_ok tc_optimal) = ss_ok /\
     termination_condition (mkResults ss_ok tc_optimal) = tc_optimal).
Proof.
  eexists. split; [vm_compute; reflexivity|].
  match goal with
  | |- print_solution ?m _ _ = _ /\ _ =>
      pose proof (print_solution_raises_only_ValueError m (fun _ => None)
                    (mkResults ss_ok tc_optimal) ValueError) as Hthm
  end.
  split; [reflexivity|]. apply Hthm. reflexivity.
Defined.

Lemma print_solution_returns_iff_witness :
  exists m,
    build_model (uniform 10 1) (uniform 10 10) (uniform 10 1)
      (full_availability 10) 20 500 = inr m /\
    exists out,
      print_solution m (loaded (two_windows 2 6 10))
        (mkResults ss_ok tc_optimal) = inr out.
Proof.
  eexists. split; [vm_compute; reflexivity|].
  apply print_solution_returns_iff; [reflexivity..|].
  exists 1. split; [reflexivity|]. split; [|by eauto].
  intros d _. split; by eauto.
Defined.

(** ** The report of a feasible assignment *)

Lemma flat_map_nil {A B : Type} (f : A -> list B) (l : list A) :
  (forall x, x ∈ l -> f x = []) -> flat_map f l = [].
Proof.
  induction l as [|x l IH]; intros Hf; simpl; [done|].
  rewrite (Hf x) by set_solver. apply IH. intros; apply Hf; set_solver.
Qed.

(** Over a run of days, a report that is empty away from [s] is the
    report of [s]. *)
Lemma flat_map_seqZ_point {B : Type} (f : Z -> list B) (lo n s : Z) :
  (lo <= s < lo + n)%Z ->
  (forall d, (lo <= d < lo + n)%Z -> d <> s -> f d = []) ->
  flat_map f (seqZ lo n) = f s.
Proof.
  intros Hs Hf.
  replace n with ((s - lo) + (1 + (lo + n - s - 1)))%Z by lia.
  rewrite (seqZ_app lo (s - lo) (1 + (lo + n - s - 1))) by lia.
  replace (lo + (s - lo))%Z with s by lia.
  rewrite (seqZ_app s 1 (lo + n - s - 1)) by lia.
  rewrite !flat_map_app.
  rewrite (flat_map_nil f (seqZ lo (s - lo))),
    (flat_map_nil f (seqZ (s + 1) (lo + n - s - 1))).
  - change (seqZ s 1) with [(0 + s)%Z]. simpl. by rewrite !app_nil_r.
  - intros d Hd. apply elem_of_seqZ in Hd. apply Hf; lia.
  - intros d Hd. apply elem_of_seqZ in Hd. apply Hf; lia.
Qed.

Lemma flat_map_seqZ_two_points {B : Type} (f : Z -> list B) (lo n s t : Z) :
  (lo <= s < t)%Z -> (t < lo + n)%Z ->
  (forall d, (lo <= d < lo + n)%Z -> d <> s -> d <> t -> f d = []) ->
  flat_map f (seqZ lo n) = f s ++ f t.
Proof.
  intros Hs Ht Hf.
  replace n with ((t - lo) + (lo + n - t))%Z by lia.
  rewrite seqZ_app by lia. rewrite flat_map_app.
  replace (lo + (t - lo))%Z with t by lia.
  rewrite (flat_map_seqZ_point f lo (t - lo) s),
    (flat_map_seqZ_point f t (lo + n - t) t); [done|lia|..|lia|].
  - intros d Hd Hne. apply Hf; lia.
  - intros d Hd Hne. apply Hf; lia.
Qed.

Lemma py_gt_half_of_one (x : Q) : x == 1 -> py_gt x (1 # 2) = true.
Proof. intros Hx. apply py_gt_true. rewrite Hx. reflexivity. Qed.

Lemma py_gt_half_of_zero (x : Q) : x == 0 -> py_gt x (1 # 2) = false.
Proof.
  intros Hx. apply not_true_iff_false. rewrite py_gt_true, Hx.
  intros H. vm_compute in H. discriminate.
Qed.

(** X11. For a feasible assignment of a built model and an optimal
    answer, [print_solution] prints exactly: the line "Optimal solution
    found.", the strategy line, one start line for the single 5-day start
    (or, for the split strategy, the 3-day and the 2-day start lines in the
    order of their days), and one total-revenue line, whose number is left
    open. *)
Theorem feasible_report (prod price coeff : gmap Z Q)
    (availability : gmap Z Z) (capacity fixed_cost : Q) (m : Model)
    (a : assignment) (results : Results) :
  build_model prod price coeff availability capacity fixed_cost = inr m ->
  feasible m a ->
  status results = ss_ok -> termination_condition results = tc_optimal ->
  (a Split == 0 ->
     exists s revenue, s ∈ T m /\ a (Start5 s) == 1 /\
       print_solution m (loaded a) results
       = inr [Text "Optimal solution found.";
              Text "Chosen strategy: 5-day maintenance.";
              WindowStart 5 s;
              TotalRevenue revenue]) /\
  (a Split == 1 ->
     exists s3 s2 revenue, s3 ∈ T m /\ s2 ∈ T m /\ s3 <> s2 /\
       a (Start3 s3) == 1 /\ a (Start2 s2) == 1 /\
       print_solution m (loaded a) results
       = inr ([Text "Optimal solution found.";
               Text "Chosen strategy: 3-day + 2-day maintenance."]
              ++ (if decide (s3 < s2)%Z
                  then [WindowStart 3 s3; WindowStart 2 s2]
                  else [WindowStart 2 s2; WindowStart 3 s3])
              ++ [TotalRevenue revenue])).
Proof.
  intros Hb Hf Hs Ht.
  rewrite (print_solution_loaded m a results Hs Ht).
  destruct (feasible_binary _ _ _ _ _ _ _ _ Hb Hf) as [_ Hbin].
  destruct (feasible_counts _ _ _ _ _ _ _ _ Hb Hf) as (H5 & H3 & H2).
  pose proof (fun d => feasible_link _ _ _ _ _ _ _ _ d Hb Hf) as Hlink.
  pose proof Hb as Hb'. apply build_model_inr in Hb' as (HT & _).
  set (n := len prod) in *.
  assert (forall (x : Z -> var), x = Start5 \/ x = Start3 \/ x = Start2 ->
            forall d, (1 <= d <= n)%Z -> is_binary (a (x d))) as Hbx.
  { intros x Hx d Hd. destruct (Hbin d Hd) as (_ & ? & ? & ?).
    destruct Hx as [->|[->| ->]]; done. }
  split; intros Hsplit; rewrite Hsplit in H5, H3, H2.
  - destruct (one_start (fun d => a (Start5 d)) n) as (s & Hin & Hone & Hrest);
      [apply Hbx; auto|by rewrite H5|].
    exists s, (py_round2 (eval a (profit m))).
    split; [rewrite HT; by apply elem_of_RangeSet|].
    split; [done|].
    unfold py_eq. rewrite (proj2 (Qeq_bool_iff _ _) Hsplit).
    rewrite HT. unfold RangeSet.
    rewrite (flat_map_seqZ_point _ 1 (n - 1 + 1) s); [|lia|].
    + by rewrite (py_gt_half_of_one _ Hone).
    + intros d Hd Hne. by rewrite py_gt_half_of_zero by (apply Hrest; [lia|done]).
  - destruct (one_start (fun d => a (Start3 d)) n) as (s3 & Hs3 & One3 & Rest3);
      [apply Hbx; auto|done|].
    destruct (one_start (fun d => a (Start2 d)) n) as (s2 & Hs2 & One2 & Rest2);
      [apply Hbx; auto|done|].
    assert (sum_from_to 1 n (fun d => a (Start5 d)) == 0) as H5' by lra.
    pose proof (no_start (fun d => a (Start5 d)) n
                  ltac:(apply Hbx; auto) H5') as Z5.
    assert (s3 <> s2) as Hne.
    { intros <-. pose proof (Hlink s3 Hs3) as Hboth.
      unfold covering_starts in Hboth.
      rewrite (interval_sum_zero _ n) in Hboth by (done || lia).
      rewrite (interval_sum_indicator _ n s3) in Hboth by (done || lia).
      rewrite (interval_sum_indicator (fun k => a (Start2 k)) n s3) in Hboth
        by (done || lia).
      rewrite !decide_True in Hboth by lia.
      destruct (Hbin s3 Hs3) as (Hbm & _).
      destruct Hbm as [Hbm|Hbm]; rewrite Hbm in Hboth; lra. }
    exists s3, s2, (py_round2 (eval a (profit m))).
    rewrite HT, !elem_of_RangeSet.
    do 3 (split; [done|]). do 2 (split; [done|]).
    assert (~ a Split == 0) as Hnz by (rewrite Hsplit; lra).
    unfold py_eq.
    assert (Qeq_bool (a Split) 0 = false) as ->
      by (apply not_true_iff_false; intros E; by apply Qeq_bool_iff in E).
    unfold RangeSet.
    assert (forall d, (1 <= d < 1 + (n - 1 + 1))%Z -> d <> s3 -> d <> s2 ->
              (if py_gt (a (Start3 d)) (1 # 2) then [WindowStart 3 d] else [])
              ++ (if py_gt (a (Start2 d)) (1 # 2) then [WindowStart 2 d] else [])
              = []) as Hnone.
    { intros d Hd N3 N2.
      rewrite !py_gt_half_of_zero; [done|apply Rest2; [lia|done]
                                   |apply Rest3; [lia|done]]. }
    case_decide.
    + rewrite (flat_map_seqZ_two_points _ 1 (n - 1 + 1) s3 s2)
        by (lia || done).
      rewrite (py_gt_half_of_one _ One3), (py_gt_half_of_one _ One2).
      rewrite (py_gt_half_of_zero (a (Start2 s3))) by (apply Rest2; [lia|done]).
      rewrite (py_gt_half_of_zero (a (Start3 s2))) by (apply Rest3; [lia|done]).
      reflexivity.
    + rewrite (flat_map_seqZ_two_points _ 1 (n - 1 + 1) s2 s3);
        [|lia|lia|intros; apply Hnone; done].
      rewrite (py_gt_half_of_one _ One3), (py_gt_half_of_one _ One2).
      rewrite (py_gt_half_of_zero (a (Start2 s3))) by (apply Rest2; [lia|done]).
      rewrite (py_gt_half_of_zero (a (Start3 s2))) by (apply Rest3; [lia|done]).
      reflexivity.
Qed.

Lemma feasible_report_witness :
  exists m,
    build_model (uniform 10 1) (uniform 10 10) (uniform 10 1)
      (full_availability 10) 20 500 = inr m /\
    feasible m (two_windows 6 2 10) /\
    (two_windows 6 2 10 Split == 1 ->
     exists s3 s2 revenue, s3 ∈ T m /\ s2 ∈ T m /\ s3 <> s2 /\
       two_windows 6 2 10 (Start3 s3) == 1 /\
       two_windows 6 2 10 (Start2 s2) == 1 /\
       print_solution m (loaded (two_windows 6 2 10))
         (mkResults ss_ok tc_optimal)
       = inr ([Text "Optimal solution found.";
               Text "Chosen strategy: 3-day + 2-day maintenance."]
              ++ (if decide (s3 < s2)%Z
                  then [WindowStart 3 s3; WindowStart 2 s2]
                  else [WindowStart 2 s2; WindowStart 3 s3])
              ++ [TotalRevenue revenue])).
Proof.
  eexists. split; [vm_compute; reflexivity|].
  split; [apply feasibleb_sound; vm_compute; reflexivity|].
  apply (feasible_report (uniform 10 1) (uniform 10 10) (uniform 10 1)
           (full_availability 10) 20 500);
    [vm_compute; reflexivity|apply feasibleb_sound; vm_compute; reflexivity
    |reflexivity..].
Defined.

(** ** The script *)

Lemma max_keys_inr {V : Type} (d : gmap Z V) (k : Z) :
  max_keys d = inr k -> d <> ∅.
Proof. intros Hk ->. discriminate. Qed.

Lemma max_keys_len {V : Type} (d : gmap Z V) :
  keys_within d (len d) -> d <> ∅ -> max_keys d = inr (len d).
Proof.
  intros Hkeys Hne. unfold max_keys.
  destruct ((map_to_list d).*1) as [|k ks] eqn:Eks.
  { apply fmap_nil_inv, map_to_list_empty_iff in Eks. done. }
  assert (forall x, x ∈ k :: ks <-> is_Some (d !! x)) as Hin.
  { intros x. rewrite <- Eks, list_elem_of_fmap. split.
    - intros ([y v] & -> & Hyv). apply elem_of_map_to_list in Hyv. eauto.
    - intros [v Hv]. exists (x, v). split; [done|].
      by apply elem_of_map_to_list. }
  destruct (fold_left_max_spec ks k) as (Hr & Hle & Hall).
  unfold ret. f_equal. apply Z.le_antisymm.
  - assert (fold_left Z.max ks k ∈ k :: ks) as Hmem
      by (destruct Hr as [->|?]; set_solver).
    apply Hin in Hmem as [v Hv]. apply Hkeys in Hv. lia.
  - assert (1 <= len d)%Z as Hpos.
    { assert (k ∈ k :: ks) as Hk by set_solver.
      apply Hin in Hk as [v Hv]. apply Hkeys in Hv. lia. }
    assert (len d ∈ k :: ks) as Hlast.
    { apply Hin, keys_fill_range; [|lia].
      intros x v Hv. apply elem_of_RangeSet. by eapply Hkeys. }
    rewrite elem_of_cons in Hlast. destruct Hlast as [<-|Hlast]; [done|auto].
Qed.

Lemma nonempty_len_pos {V : Type} (d : gmap Z V) :
  d <> ∅ -> (1 <= len d)%Z.
Proof.
  intros Hne. unfold len.
  destruct (decide (size d = 0%nat)) as [Hz|Hz]; [|lia].
  by apply map_size_empty_iff in Hz.
Qed.

Lemma keys_within_comprehension {V : Type} (f : Z -> V) (n : Z) :
  keys_within (list_to_map ((fun d => (d, f d)) <$> range 1 (n + 1))) n.
Proof.
  intros k v Hkv. rewrite lookup_comprehension in Hkv.
  case_decide as Hk; [|done]. apply elem_of_seqZ in Hk. lia.
Qed.

Lemma covers_comprehension {V : Type} (f : Z -> V) (n : Z) :
  covers (list_to_map ((fun d => (d, f d)) <$> range 1 (n + 1))) n.
Proof.
  intros k Hk. rewrite lookup_comprehension.
  rewrite decide_True by (apply elem_of_seqZ; lia). eauto.
Qed.

(** The two models of the script, for a well-formed forecast. *)
Lemma script_models_built (prod price coeff : gmap Z Q) :
  well_formed_forecast prod price coeff ->
  max_keys prod = inr (len prod) /\
  exists m1 m2,
    build_model prod price coeff (full_availability (len prod)) 20 500
      = inr m1 /\
    build_model prod price coeff (blackout_availability 150 200 (len prod))
      20 500 = inr m2.
Proof.
  intros (Hne & K1 & K2 & K3 & C2 & C3).
  split; [by apply max_keys_len|].
  destruct (proj2 (build_model_returns_when prod price coeff
                     (full_availability (len prod)) 20 500)) as [m1 H1].
  { repeat (split; [done|]). split; [apply keys_within_comprehension|].
    repeat (split; [done|]). apply covers_comprehension. }
  destruct (proj2 (build_model_returns_when prod price coeff
                     (blackout_availability 150 200 (len prod)) 20 500))
    as [m2 H2].
  { repeat (split; [done|]). split; [apply keys_within_comprehension|].
    repeat (split; [done|]). apply covers_comprehension. }
  eauto.
Qed.

Lemma script_first_model_well_formed (prod price coeff : gmap Z Q)
    (horizon : Z) (m1 : Model) :
  max_keys prod = inr horizon ->
  build_model prod price coeff (full_availability horizon) 20 500 = inr m1 ->
  well_formed_forecast prod price coeff /\ horizon = len prod.
Proof.
  intros Hmax Hb.
  assert (exists m, build_model prod price coeff (full_availability horizon)
                      20 500 = inr m) as Hex by eauto.
  apply build_model_returns_when in Hex as (K1 & K2 & K3 & _ & C2 & C3 & _).
  pose proof (max_keys_inr _ _ Hmax) as Hne.
  split; [unfold well_formed_forecast; tauto|].
  rewrite (max_keys_len _ K1 Hne) in Hmax. by injection Hmax.
Qed.

(** X12. The script runs to its end only on a well-formed forecast; on
    any other forecast it raises the same exception whatever the solver
    does, that is, before the solver is consulted. *)
Theorem script_needs_well_formed_forecast
    (solve : Model -> result (valuation * Results))
    (prod price coeff : gmap Z Q) :
  (forall out, script solve prod price coeff = inr out ->
     well_formed_forecast prod price coeff) /\
  (~ well_formed_forecast prod price coeff ->
     exists e, forall solve', script solve' prod price coeff = inl e).
Proof.
  split.
  - intros out Hrun. unfold script in Hrun.
    apply bind_inr in Hrun as (horizon & Hmax & Hrun).
    apply bind_inr in Hrun as (m1 & Hb1 & _).
    by destruct (script_first_model_well_formed _ _ _ _ _ Hmax Hb1).
  - intros Hnot. unfold script.
    destruct (max_keys prod) as [e|horizon] eqn:Hmax;
      [exists e; intros; reflexivity|].
    destruct (build_model prod price coeff (full_availability horizon) 20 500)
      as [e|m1] eqn:Hb1; [exists e; intros; simpl; rewrite Hb1; reflexivity|].
    by destruct (script_first_model_well_formed _ _ _ _ _ Hmax Hb1).
Qed.

Lemma script_needs_well_formed_forecast_witness :
  ~ well_formed_forecast (delete 5%Z (uniform 10 1)) (uniform 10 10)
      (uniform 10 1) /\
  exists e, forall solve',
    script solve' (delete 5%Z (uniform 10 1)) (uniform 10 10) (uniform 10 1)
    = inl e.
Proof.
  assert (~ well_formed_forecast (delete 5%Z (uniform 10 1)) (uniform 10 10)
            (uniform 10 1)) as Hnot.
  { intros (_ & H & _). specialize (H 10%Z 1 eq_refl). vm_compute in H.
    destruct H as [_ H]. by apply H. }
  split; [exact Hnot|].
  apply (script_needs_well_formed_forecast (fun _ => inl ApplicationError)).
  exact Hnot.
Defined.

(** X13. Whenever the script runs to its end, the two models it handed
    to the solver are built over the days [1..len(prod)]; the first fixes no
    variable, the second fixes exactly the start variables of the days
    150..200 of the horizon; both have the same objective, every feasible
    assignment of the second is feasible for the first, and the second (hence
    the first) has a feasible assignment. *)
Theorem script_models_nested
    (solve : Model -> result (valuation * Results))
    (prod price coeff : gmap Z Q) (out : list line) :
  script solve prod price coeff = inr out ->
  exists m1 m2 solved1 solved2,
    build_model prod price coeff (full_availability (len prod)) 20 500
      = inr m1 /\
    build_model prod price coeff (blackout_availability 150 200 (len prod))
      20 500 = inr m2 /\
    solve m1 = inr solved1 /\ solve m2 = inr solved2 /\
    fixed m1 = [] /\
    (forall v q, (v, q) ∈ fixed m2
       <-> q = 0 /\
           exists d, (1 <= d <= len prod)%Z /\ (150 <= d <= 200)%Z /\
             (v = Start5 d \/ v = Start3 d \/ v = Start2 d)) /\
    profit m1 = profit m2 /\
    (forall a, feasible m2 a -> feasible m1 a) /\
    (exists a, feasible m2 a).
Proof.
  intros Hrun. unfold script in Hrun.
  apply bind_inr in Hrun as (horizon & Hmax & Hrun).
  apply bind_inr in Hrun as (m1 & Hb1 & Hrun).
  apply bind_inr in Hrun as (solved1 & Hs1 & Hrun).
  apply bind_inr in Hrun as (r1 & _ & Hrun).
  apply bind_inr in Hrun as (m2 & Hb2 & Hrun).
  apply bind_inr in Hrun as (solved2 & Hs2 & _).
  destruct (script_first_model_well_formed _ _ _ _ _ Hmax Hb1)
    as [(Hne & _) ->].
  exists m1, m2, solved1, solved2. do 4 (split; [done|]).
  pose proof Hb2 as Hb2'. apply build_model_inr in Hb2' as (HT2 & _).
  split; [|split; [|split; [|split]]].
  - destruct (fixed m1) as [|[v q] rest] eqn:E; [done|].
    assert ((v, q) ∈ fixed m1) as Hin by (rewrite E; set_solver).
    apply (fixed_characterised _ _ _ _ _ _ _ _ _ Hb1) in Hin
      as (_ & d & _ & Hun & _).
    by apply full_availability_available in Hun.
  - intros v q. rewrite (fixed_characterised _ _ _ _ _ _ _ _ _ Hb2), HT2.
    split; intros (-> & d & H); (split; [done|]); exists d.
    + destruct H as (_ & Hun & Hv).
      apply blackout_availability_unavailable in Hun. tauto.
    + destruct H as (Hd & Hw & Hv). split; [by apply elem_of_RangeSet|].
      split; [by apply blackout_availability_unavailable|done].
  - eapply restricted_availability_feasible; [exact Hb1|exact Hb2|].
    intros d Hd. by apply full_availability_available in Hd.
  - eapply restricted_availability_feasible; [exact Hb1|exact Hb2|].
    intros d Hd. by apply full_availability_available in Hd.
  - exists (one_window 1 (len prod)).
    eapply one_window_feasible; [done| |].
    + rewrite HT2. apply elem_of_RangeSet.
      pose proof (nonempty_len_pos _ Hne). lia.
    + intros Hun. apply blackout_availability_unavailable in Hun. lia.
Qed.

Lemma script_models_nested_witness :
  script (fun _ => inr (fun _ => None, mkResults ss_ok tc_other))
    (uniform 10 1) (uniform 10 10) (uniform 10 1)
  = inr [Text "=== RESULTS WITHOUT NO-MAINTENANCE WINDOW ===";
         Text "No feasible solution or solver error.";
         Text ("-------------------------------------------------"
               ++ String "010"%char EmptyString);
         Text "=== RESULTS WITH NO-MAINTENANCE WINDOW [150..200] ===";
         Text "No feasible solution or solver error.";
         Text "-------------------------------------------------"] /\
  exists m1 m2,
    build_model (uniform 10 1) (uniform 10 10) (uniform 10 1)
      (full_availability (len (uniform 10 1%Q))) 20 500 = inr m1 /\
    build_model (uniform 10 1) (uniform 10 10) (uniform 10 1)
      (blackout_availability 150 200 (len (uniform 10 1%Q))) 20 500
      = inr m2 /\
    fixed m1 = [] /\ profit m1 = profit m2 /\
    (forall a, feasible m2 a -> feasible m1 a) /\
    (exists a, feasible m2 a).
Proof.
  assert (script (fun _ => inr (fun _ => None, mkResults ss_ok tc_other))
            (uniform 10 1) (uniform 10 10) (uniform 10 1)
          = inr [Text "=== RESULTS WITHOUT NO-MAINTENANCE WINDOW ===";
                 Text "No feasible solution or solver error.";
                 Text ("-------------------------------------------------"
                       ++ String "010"%char EmptyString);
                 Text "=== RESULTS WITH NO-MAINTENANCE WINDOW [150..200] ===";
                 Text "No feasible solution or solver error.";
                 Text "-------------------------------------------------"])
    as Hrun by (vm_compute; reflexivity).
  split; [exact Hrun|].
  destruct (script_models_nested _ _ _ _ _ Hrun)
    as (m1 & m2 & _ & _ & H1 & H2 & _ & _ & Hfx & _ & Hp & Hsub & Hex).
  exists m1, m2.
  exact (conj H1 (conj H2 (conj Hfx (conj Hp (conj Hsub Hex))))).
Defined.

(** X14. On a well-formed forecast, when the solver returns an answer
    that is not optimal for every model, the script prints the two headers,
    each followed by the no-solution line and the separator. *)
Theorem script_reports_no_solution
    (solve : Model -> result (valuation * Results))
    (prod price coeff : gmap Z Q) :
  well_formed_forecast prod price coeff ->
  (forall m, exists solved,
     solve m = inr solved /\
     (status solved.2 <> ss_ok \/
      termination_condition solved.2 <> tc_optimal)) ->
  script solve prod price coeff
  = inr [Text "=== RESULTS WITHOUT NO-MAINTENANCE WINDOW ===";
         Text "No feasible solution or solver error.";
         Text ("-------------------------------------------------"
               ++ String "010"%char EmptyString);
         Text "=== RESULTS WITH NO-MAINTENANCE WINDOW [150..200] ===";
         Text "No feasible solution or solver error.";
         Text "-------------------------------------------------"].
Proof.
  intros Hwf Hsolve.
  destruct (script_models_built _ _ _ Hwf) as (Hmax & m1 & m2 & Hb1 & Hb2).
  unfold script. rewrite Hmax. simpl. rewrite Hb1. simpl.
  destruct (Hsolve m1) as (s1 & -> & Hbad1). simpl.
  assert (forall m s, status s.2 <> ss_ok \/
                      termination_condition s.2 <> tc_optimal ->
            print_solution m s.1 s.2
            = inr [Text "No feasible solution or solver error."]) as Hprint.
  { intros m s Hbad. unfold print_solution. destruct Hbad as [Hs|Ht].
    - rewrite (bool_decide_eq_false_2 _ Hs). reflexivity.
    - rewrite (bool_decide_eq_false_2 _ Ht), andb_false_r. reflexivity. }
  rewrite (Hprint m1 s1 Hbad1). simpl. rewrite Hb2. simpl.
  destruct (Hsolve m2) as (s2 & -> & Hbad2). simpl.
  rewrite (Hprint m2 s2 Hbad2). reflexivity.
Qed.

Lemma script_reports_no_solution_witness :
  well_formed_forecast (uniform 10 1) (uniform 10 10) (uniform 10 1) /\
  script (fun _ => inr (fun _ => None, mkResults ss_warning tc_other))
    (uniform 10 1) (uniform 10 10) (uniform 10 1)
  = inr [Text "=== RESULTS WITHOUT NO-MAINTENANCE WINDOW ===";
         Text "No feasible solution or solver error.";
         Text ("-------------------------------------------------"
               ++ String "010"%char EmptyString);
         Text "=== RESULTS WITH NO-MAINTENANCE WINDOW [150..200] ===";
         Text "No feasible solution or solver error.";
         Text "-------------------------------------------------"].
Proof.
  assert (well_formed_forecast (uniform 10 1) (uniform 10 10) (uniform 10 1))
    as Hwf.
  { split; [intros H; by apply (f_equal (fun d => d !! 1%Z)) in H|].
    do 3 (split; [apply keys_within_Forall, (bool_decide_unpack _);
                  vm_compute; reflexivity|]).
    split; apply covers_Forall, (bool_decide_unpack _); vm_compute;
      reflexivity. }
  split; [exact Hwf|].
  apply script_reports_no_solution; [exact Hwf|].
  intros m. eexists. split; [reflexivity|]. left. discriminate.
Defined.

(** ** Which strategies a model allows *)

Lemma two_windows_binary (s3 s2 n : Z) (v : var) :
  is_binary (two_windows s3 s2 n v).
Proof.
  unfold two_windows. destruct v; repeat case_match;
    first [by left|by right].
Qed.

Lemma two_windows_start3 (s3 s2 n d : Z) :
  d <> s3 -> two_windows s3 s2 n (Start3 d) == 0.
Proof. intros Hne. simpl. by rewrite (proj2 (Z.eqb_neq d s3)). Qed.

Lemma two_windows_start2 (s3 s2 n d : Z) :
  d <> s2 -> two_windows s3 s2 n (Start2 d) == 0.
Proof. intros Hne. simpl. by rewrite (proj2 (Z.eqb_neq d s2)). Qed.

(** A 3-day and a 2-day window started on available days of the horizon,
    with no day in common, are a feasible assignment. *)
Lemma two_windows_feasible (prod price coeff : gmap Z Q)
    (availability : gmap Z Z) (capacity fixed_cost : Q) (m : Model)
    (s3 s2 : Z) :
  build_model prod price coeff availability capacity fixed_cost = inr m ->
  s3 ∈ T m -> s2 ∈ T m ->
  ~ unavailable availability s3 -> ~ unavailable availability s2 ->
  (s3 + 2 < s2 \/ s2 + 1 < s3)%Z ->
  feasible m (two_windows s3 s2 (len prod)).
Proof.
  intros Hb Hs3 Hs2 Hav3 Hav2 Hdisj. pose proof Hb as Hb'.
  apply build_model_inr in Hb'
    as (HT & _ & _ & _ & E5 & E3 & E2 & El & _).
  rewrite HT in Hs3, Hs2. apply elem_of_RangeSet in Hs3, Hs2.
  set (n := len prod) in *.
  repeat split.
  - apply Forall_forall. intros v _. apply two_windows_binary.
  - apply Forall_forall. intros [v q] Hin.
    apply (fixed_characterised _ _ _ _ _ _ _ _ _ Hb) in Hin
      as (-> & d & Hd & Hun & Hv).
    destruct Hv as [->|[->| ->]]; [reflexivity| |].
    + apply two_windows_start3. by intros ->.
    + apply two_windows_start2. by intros ->.
  - rewrite E5. unfold holds. simpl. rewrite eval_py_sum_vars.
    rewrite sumQ_zero by reflexivity. reflexivity.
  - rewrite E3. unfold holds. simpl. rewrite eval_py_sum_vars.
    etransitivity; [apply (sumQ_single _ s3); [apply NoDup_RangeSet|]|].
    + intros d Hd ?. by apply two_windows_start3.
    + rewrite decide_True by (by apply elem_of_RangeSet).
      simpl. rewrite Z.eqb_refl. reflexivity.
  - rewrite E2. unfold holds. simpl. rewrite eval_py_sum_vars.
    etransitivity; [apply (sumQ_single _ s2); [apply NoDup_RangeSet|]|].
    + intros d Hd ?. by apply two_windows_start2.
    + rewrite decide_True by (by apply elem_of_RangeSet).
      simpl. rewrite Z.eqb_refl. reflexivity.
  - rewrite El. apply Forall_forall. intros [d c] Hin.
    apply list_elem_of_fmap in Hin as (d' & [= -> ->] & Hd).
    apply elem_of_RangeSet in Hd. simpl.
    apply link_maintenance_rule_holds. unfold covering_starts.
    rewrite (interval_sum_zero _ n) by (reflexivity || lia).
    rewrite (interval_sum_indicator _ n s3)
      by (lia || intros; by apply two_windows_start3).
    rewrite (interval_sum_indicator _ n s2)
      by (lia || intros; by apply two_windows_start2).
    simpl. rewrite !Z.eqb_refl.
    repeat case_decide;
      destruct (Z.leb_spec s3 d'); destruct (Z.leb_spec d' (s3 + 2));
      destruct (Z.leb_spec s2 d'); destruct (Z.leb_spec d' (s2 + 1));
      destruct (Z.leb_spec d' n); simpl; try lia; reflexivity.
Qed.

(** X15. A built model allows the single-window strategy exactly when a
    day of the horizon is available, and the split strategy exactly when two
    available days [s3] and [s2] of the horizon exist whose windows
    [s3..s3+2] and [s2..s2+1] have no day in common. *)
Theorem strategies_possible (prod price coeff : gmap Z Q)
    (availability : gmap Z Z) (capacity fixed_cost : Q) (m : Model) :
  build_model prod price coeff availability capacity fixed_cost = inr m ->
  ((exists a, feasible m a /\ a Split == 0)
   <-> exists s, s ∈ T m /\ ~ unavailable availability s) /\
  ((exists a, feasible m a /\ a Split == 1)
   <-> exists s3 s2, s3 ∈ T m /\ s2 ∈ T m /\
         ~ unavailable availability s3 /\ ~ unavailable availability s2 /\
         (s3 + 2 < s2 \/ s2 + 1 < s3)%Z).
Proof.
  intros Hb. pose proof Hb as Hb'. apply build_model_inr in Hb' as (HT & _).
  assert (forall a, feasible m a ->
            forall (x : Z -> var), x = Start5 \/ x = Start3 \/ x = Start2 ->
            forall d, (1 <= d <= (len prod))%Z -> is_binary (a (x d))) as Hbx.
  { intros a Hf x Hx d Hd.
    destruct (feasible_binary _ _ _ _ _ _ _ _ Hb Hf) as [_ Hbin].
    destruct (Hbin d Hd) as (_ & ? & ? & ?).
    destruct Hx as [->|[->| ->]]; done. }
  split; split.
  - intros (a & Hf & Hsplit).
    destruct (feasible_counts _ _ _ _ _ _ _ _ Hb Hf) as (H5 & _).
    rewrite Hsplit in H5.
    destruct (one_start (fun d => a (Start5 d)) (len prod)) as (s & Hin & Hone & _);
      [by apply (Hbx a Hf); auto|rewrite H5; reflexivity|].
    assert (s ∈ T m) as HsT by (rewrite HT; by apply elem_of_RangeSet).
    exists s. split; [done|]. intros Hun.
    destruct (unavailable_starts_zero _ _ _ _ _ _ _ _ _ Hb Hf HsT Hun)
      as (Hz & _). rewrite Hz in Hone. lra.
  - intros (s & Hs & Hav). exists (one_window s (len prod)).
    split; [by eapply one_window_feasible|reflexivity].
  - intros (a & Hf & Hsplit).
    destruct (feasible_binary _ _ _ _ _ _ _ _ Hb Hf) as [_ Hbin].
    destruct (feasible_counts _ _ _ _ _ _ _ _ Hb Hf) as (H5 & H3 & H2).
    rewrite Hsplit in H5, H3, H2.
    destruct (one_start (fun d => a (Start3 d)) (len prod)) as (s3 & Hs3 & One3 & Rest3);
      [by apply (Hbx a Hf); auto|done|].
    destruct (one_start (fun d => a (Start2 d)) (len prod)) as (s2 & Hs2 & One2 & Rest2);
      [by apply (Hbx a Hf); auto|done|].
    assert (sum_from_to 1 (len prod) (fun d => a (Start5 d)) == 0) as H5' by lra.
    pose proof (no_start (fun d => a (Start5 d)) (len prod)
                  ltac:(by apply (Hbx a Hf); auto) H5') as Z5.
    assert (s3 ∈ T m /\ s2 ∈ T m) as [T3 T2]
      by (rewrite HT; split; by apply elem_of_RangeSet).
    exists s3, s2. do 2 (split; [done|]).
    split; [|split].
    + intros Hun.
      destruct (unavailable_starts_zero _ _ _ _ _ _ _ _ _ Hb Hf T3 Hun)
        as (_ & Hz & _). rewrite Hz in One3. lra.
    + intros Hun.
      destruct (unavailable_starts_zero _ _ _ _ _ _ _ _ _ Hb Hf T2 Hun)
        as (_ & _ & Hz). rewrite Hz in One2. lra.
    + destruct (decide (s3 + 2 < s2 \/ s2 + 1 < s3)%Z) as [?|Hov]; [done|].
      exfalso.
      pose proof (feasible_link _ _ _ _ _ _ _ _ (Z.max s3 s2) Hb Hf
                    ltac:(lia)) as Hboth.
      unfold covering_starts in Hboth.
      rewrite (interval_sum_zero _ (len prod)) in Hboth by (done || lia).
      rewrite (interval_sum_indicator _ (len prod) s3) in Hboth by (done || lia).
      rewrite (interval_sum_indicator (fun k => a (Start2 k)) (len prod) s2) in Hboth
        by (done || lia).
      rewrite !decide_True in Hboth by lia.
      destruct (Hbin (Z.max s3 s2) ltac:(lia)) as (Hbm & _).
      destruct Hbm as [Hbm|Hbm]; rewrite Hbm in Hboth; lra.
  - intros (s3 & s2 & T3 & T2 & A3 & A2 & Hdisj).
    exists (two_windows s3 s2 (len prod)).
    split; [by eapply two_windows_feasible|reflexivity].
Qed.

Lemma strategies_possible_witness :
  exists m,
    build_model (uniform 2 1) (uniform 2 10) (uniform 2 1)
      (full_availability 2) 20 500 = inr m /\
    ~ exists a, feasible m a /\ a Split == 1.
Proof.
  eexists. split; [vm_compute; reflexivity|].
  intros Hex.
  apply (strategies_possible (uniform 2 1) (uniform 2 10) (uniform 2 1)
           (full_availability 2) 20 500) in Hex; [|vm_compute; reflexivity].
  destruct Hex as (s3 & s2 & T3 & T2 & _ & _ & Hdisj).
  apply list_elem_of_In in T3, T2. simpl in T3, T2. lia.
Defined.
